(** * SPARK MCP tools: a shallow embedding of [src/tools/02_spark_example.py]

    The three tools [create_spark_object], [spark_vc] and [spark_test] are
    thin wrappers: allocate a temporary file, build an argument list, run
    [Rscript] and wait, read the table the engine wrote, delete it, and return
    a dictionary.  The embedding keeps that shape: a state-and-exception monad
    over a world made of a filesystem, the supply of temporary names and a
    trace of the effects performed. *)

From Stdlib Require Import ZArith List String Ascii Lia Bool.
From Stdlib Require Import Floats.SpecFloat Sorting.Sorted.
From stdpp Require Import base option list strings gmap pretty.

Local Open Scope string_scope.
Local Open Scope Z_scope.

(** ** Python builtins used by the tools *)

Module Py.

(** [str(b)] for a [bool]. *)
Definition str_bool (b : bool) : string := if b then "True" else "False".

(** [str(n)] for an [int]: decimal digits, a leading minus sign when negative. *)
Definition str_int (z : Z) : string := pretty z.

Definition upper_ascii (c : ascii) : ascii :=
  let n := nat_of_ascii c in
  if ((97 <=? n)%nat && (n <=? 122)%nat)%bool then ascii_of_nat (n - 32) else c.

(** [s.upper()], on the ASCII letters. *)
Fixpoint upper (s : string) : string :=
  match s with
  | EmptyString => EmptyString
  | String c s' => String (upper_ascii c) (upper s')
  end.

Fixpoint drop (n : nat) (s : string) : string :=
  match n, s with
  | O, _ => s
  | S _, EmptyString => EmptyString
  | S n', String _ s' => drop n' s'
  end.

(** Left-to-right scan of [str.replace]: at an occurrence of [old] emit [new]
    and resume after the occurrence, otherwise copy one character.  [fuel]
    bounds the number of steps; [String.length s] is always enough. *)
Fixpoint replace_scan (fuel : nat) (old new s : string) : string :=
  match fuel with
  | O => s
  | S fuel' =>
      match s with
      | EmptyString => EmptyString
      | String c s' =>
          if String.prefix old s
          then new +:+ replace_scan fuel' old new (drop (String.length old) s)
          else String c (replace_scan fuel' old new s')
      end
  end.

(** [s.replace("", new)] puts [new] before every character and at the end. *)
Fixpoint intersperse (new s : string) : string :=
  match s with
  | EmptyString => new
  | String c s' => new +:+ String c (intersperse new s')
  end.

(** [s.replace(old, new)]: every non-overlapping occurrence, leftmost first. *)
Definition replace (s old new : string) : string :=
  match old with
  | EmptyString => intersperse new s
  | _ => replace_scan (String.length s) old new s
  end.

(** [old in s]. *)
Fixpoint contains (old s : string) : bool :=
  String.prefix old s ||
  match s with
  | EmptyString => false
  | String _ s' => contains old s'
  end.

(** Truthiness of an [Optional[str]]: [None] and [""] are falsy. *)
Definition truthy (o : option string) : bool :=
  match o with
  | None => false
  | Some s => negb (String.eqb s "")
  end.

End Py.

(** ** Exceptions and results *)

Inductive exn : Type :=
| CalledProcessError (returncode : Z) (cmd : list string)
| FileNotFoundError (path : string)
| FileExistsError
| EmptyDataError
| ParserError
| KeyError (key : string)
| TypeError
| ValueError
| OverflowError.

Inductive result (A : Type) : Type :=
| Ok (a : A)
| Raise (e : exn).
Arguments Ok {A} a.
Arguments Raise {A} e.

Definition rbind {A B} (r : result A) (k : A -> result B) : result B :=
  match r with
  | Ok a => k a
  | Raise e => Raise e
  end.

(** ** Scalars and the [int]/[str] conversions applied to them *)

Inductive scalar : Type :=
| VInt (z : Z)
| VFloat (f : spec_float)
| VBool (b : bool)
| VStr (s : string).

Module PyInt.

Definition is_space (c : ascii) : bool :=
  let n := nat_of_ascii c in
  ((9 <=? n)%nat && (n <=? 13)%nat) || ((28 <=? n)%nat && (n <=? 32)%nat).

Fixpoint lstrip (s : string) : string :=
  match s with
  | String c s' => if is_space c then lstrip s' else s
  | EmptyString => EmptyString
  end.

Definition strip (s : string) : string :=
  String.rev (lstrip (String.rev (lstrip s))).

Definition digit (c : ascii) : option Z :=
  let n := nat_of_ascii c in
  if ((48 <=? n)%nat && (n <=? 57)%nat)%bool then Some (Z.of_nat (n - 48)) else None.

(** Decimal digits, single underscores allowed between two digits. *)
Fixpoint digits (acc : Z) (after_digit : bool) (s : string) : option Z :=
  match s with
  | EmptyString => if after_digit then Some acc else None
  | String c s' =>
      match digit c with
      | Some d => digits (10 * acc + d) true s'
      | None =>
          if (Ascii.eqb c "_" && after_digit)%bool then digits acc false s' else None
      end
  end.

(** [int(s)] for a [str], base ten. *)
Definition of_str (s : string) : result Z :=
  let body :=
    match strip s with
    | String "-" r => Z.opp <$> digits 0 false r
    | String "+" r => digits 0 false r
    | r => digits 0 false r
    end in
  match body with
  | Some z => Ok z
  | None => Raise ValueError
  end.

(** [int(x)] for a float: truncation toward zero. *)
Definition of_float (f : spec_float) : result Z :=
  match f with
  | S754_zero _ => Ok 0
  | S754_infinity _ => Raise OverflowError
  | S754_nan => Raise ValueError
  | S754_finite s m e =>
      let a := if 0 <=? e then Z.shiftl (Zpos m) e else Z.shiftr (Zpos m) (- e) in
      Ok (if s then - a else a)
  end.

(** [int(x)] on a value taken out of a data frame. *)
Definition int (x : scalar) : result Z :=
  match x with
  | VInt z => Ok z
  | VFloat f => of_float f
  | VBool b => Ok (if b then 1 else 0)
  | VStr s => of_str s
  end.

End PyInt.

(** ** The part of pandas the tools use

    A data frame is a list of named, typed columns.  A CSV file is represented
    by the typed grid a reader gets from it; [read_frame] adds what the reader
    does on top of that: a grid no file can hold (ragged, or with a float
    that is not a double) is rejected, and a table with a header but no data
    row has every column of dtype [object]. *)

Module Pandas.

Inductive Series : Type :=
| IntS (l : list Z)
| FloatS (l : list spec_float)
| BoolS (l : list bool)
| ObjS (l : list string).

Definition cells (s : Series) : list scalar :=
  match s with
  | IntS l => VInt <$> l
  | FloatS l => VFloat <$> l
  | BoolS l => VBool <$> l
  | ObjS l => VStr <$> l
  end.

Definition size (s : Series) : nat := length (cells s).

Record DataFrame : Type := { nrows : nat; cols : list (string * Series) }.

(** [len(df)] *)
Definition len (df : DataFrame) : Z := Z.of_nat (nrows df).

Fixpoint assoc (name : string) (l : list (string * Series)) : option Series :=
  match l with
  | [] => None
  | (c, s) :: l' => if String.eqb c name then Some s else assoc name l'
  end.

(** [df[name]] *)
Definition col (df : DataFrame) (name : string) : result Series :=
  match assoc name (cols df) with
  | Some s => Ok s
  | None => Raise (KeyError name)
  end.

(** [s[0]] under the default integer index. *)
Definition at0 (s : Series) : result scalar :=
  match cells s !! 0%nat with
  | Some v => Ok v
  | None => Raise (KeyError "0")
  end.

(** The double nearest to 0.05: 0x1999999999999A * 2^-57. *)
Definition c0_05 : spec_float := S754_finite false 7205759403792794 (-57).

(** [s < 0.05], elementwise.  An integer is below 0.05 exactly when it is at
    most 0, [False] counts as 0 and [True] as 1, NaN compares false, and a
    string cannot be compared with a float. *)
Definition lt_0_05 (s : Series) : result (list bool) :=
  match s with
  | FloatS l => Ok ((fun f => SFltb f c0_05) <$> l)
  | IntS l => Ok ((fun z => z <=? 0) <$> l)
  | BoolS l => Ok (negb <$> l)
  | ObjS [] => Ok []
  | ObjS (_ :: _) => Raise TypeError
  end.

(** [mask.sum()] on a boolean series. *)
Definition sum (mask : list bool) : Z :=
  foldr (fun (b : bool) acc => (if b then 1 else 0) + acc) 0 mask.

Definition is_nan (f : spec_float) : bool :=
  match f with S754_nan => true | _ => false end.

(** Ascending order of a float column, NaN after every number. *)
Definition float_le (a b : spec_float) : bool :=
  match SFcompare a b with
  | Some Gt => false
  | Some _ => true
  | None => is_nan b
  end.

Definition bool_le (a b : bool) : bool := implb a b.

Section Sort.
Context {A : Type} (le : A -> A -> bool).

Fixpoint insert (x : A) (l : list A) : list A :=
  match l with
  | [] => [x]
  | y :: l' => if le x y then x :: l else y :: insert x l'
  end.

(** Stable: an element is placed before the later elements equal to it. *)
Definition stable_sort (l : list A) : list A := foldr insert [] l.
End Sort.

(** Row positions in ascending order of their key, ties in row order. *)
Definition argsort {K} (le : K -> K -> bool) (keys : list K) : list nat :=
  fst <$> stable_sort (fun a b => le (snd a) (snd b))
            (combine (seq 0 (length keys)) keys).

Definition pick {A} (idx : list nat) (l : list A) : list A :=
  omap (fun i => l !! i) idx.

Definition take_rows (idx : list nat) (s : Series) : Series :=
  match s with
  | IntS l => IntS (pick idx l)
  | FloatS l => FloatS (pick idx l)
  | BoolS l => BoolS (pick idx l)
  | ObjS l => ObjS (pick idx l)
  end.

(** The row order [nsmallest] sorts by; a column of dtype [object] is refused. *)
Definition order_of (s : Series) : result (list nat) :=
  match s with
  | IntS l => Ok (argsort Z.leb l)
  | FloatS l => Ok (argsort float_le l)
  | BoolS l => Ok (argsort bool_le l)
  | ObjS _ => Raise TypeError
  end.

(** [df.nsmallest(n, name)] with [keep="first"]: the first [n] rows of the
    frame sorted by the column. *)
Definition nsmallest (n : nat) (name : string) (df : DataFrame) : result DataFrame :=
  rbind (col df name) (fun s =>
  rbind (order_of s) (fun order =>
  let idx := firstn n order in
  Ok {| nrows := length idx;
        cols := (fun cs => (cs.1, take_rows idx cs.2)) <$> cols df |})).

(** [df[[name; ...]]] *)
Fixpoint select_cols (df : DataFrame) (names : list string)
  : result (list (string * Series)) :=
  match names with
  | [] => Ok []
  | name :: rest =>
      rbind (col df name) (fun s =>
      rbind (select_cols df rest) (fun l => Ok ((name, s) :: l)))
  end.

Definition select (names : list string) (df : DataFrame) : result DataFrame :=
  rbind (select_cols df names) (fun l => Ok {| nrows := nrows df; cols := l |}).

(** [df.to_dict(orient="records")]: one dictionary per row, keyed by column. *)
Definition to_dict_records (df : DataFrame) : list (list (string * scalar)) :=
  (fun r => omap (fun cs : string * Series => pair cs.1 <$> (cells cs.2 !! r)) (cols df))
    <$> seq 0 (nrows df).

(** A double: the finite values are those with a 53-bit canonical mantissa. *)
Definition binary64 (f : spec_float) : bool := valid_binary 53 1024 f.

Definition valid_series (s : Series) : bool :=
  match s with
  | FloatS l => forallb binary64 l
  | _ => true
  end.

(** A grid some file can hold: a header, columns of one length, doubles. *)
Definition well_formed (df : DataFrame) : bool :=
  match cols df with
  | [] => false
  | l => forallb (fun cs : string * Series =>
                    Nat.eqb (size cs.2) (nrows df) && valid_series cs.2) l
  end.

(** What [read_csv] returns for the grid stored in a file. *)
Definition read_frame (grid : DataFrame) : result DataFrame :=
  if well_formed grid then
    match nrows grid with
    | O => Ok {| nrows := O; cols := (fun cs => (cs.1, ObjS [])) <$> cols grid |}
    | S _ => Ok grid
    end
  else Raise ParserError.

End Pandas.

(** ** The world the tools run in *)

Inductive content : Type :=
| Empty                               (* a zero-length file *)
| Csv (grid : Pandas.DataFrame)       (* a delimited table *)
| Blob (data : string).               (* anything else, e.g. an RDS object *)

Inductive event : Type :=
| EvTemp (path : string)
| EvRun (cmd : list string) (returncode : Z)
| EvRead (path : string)
| EvUnlink (path : string).

Record world : Type := {
  fs : gmap string content;
  tmp_stems : list string;   (* directory, prefix and random part of the next candidates *)
  trace : list event
}.

Definition log (e : event) (w : world) : world :=
  {| fs := fs w; tmp_stems := tmp_stems w; trace := trace w ++ [e] |}.

Definition with_fs (m : gmap string content) (w : world) : world :=
  {| fs := m; tmp_stems := tmp_stems w; trace := trace w |}.

(** State and exceptions: a raised exception keeps the effects done so far. *)
Definition M (A : Type) : Type := world -> result A * world.

Definition ret {A} (a : A) : M A := fun w => (Ok a, w).

Definition bind {A B} (m : M A) (k : A -> M B) : M B :=
  fun w =>
    match m w with
    | (Ok a, w') => k a w'
    | (Raise e, w') => (Raise e, w')
    end.

Definition lift {A} (r : result A) : M A := fun w => (r, w).

Declare Scope tool_scope.
Delimit Scope tool_scope with tool.
Notation "x <- c ;; k" := (bind c (fun x => k))
  (at level 100, c at next level, right associativity) : tool_scope.
Notation "c ;;; k" := (bind c (fun _ => k))
  (at level 100, right associativity) : tool_scope.
Notation "'try!' x := r 'in' k" := (rbind r (fun x => k))
  (at level 100, x name, r at next level, right associativity) : tool_scope.

(** The candidate loop of [tempfile]: the first name that does not exist. *)
Fixpoint mkstemp (suffix : string) (m : gmap string content) (stems : list string)
  : option (string * list string) :=
  match stems with
  | [] => None
  | stem :: rest =>
      let name := stem +:+ suffix in
      match m !! name with
      | None => Some (name, rest)
      | Some _ => mkstemp suffix m rest
      end
  end.

(** [with tempfile.NamedTemporaryFile(suffix=..., delete=False) as f: f.name]:
    the file is created empty and stays after the block. *)
Definition NamedTemporaryFile (suffix : string) : M string :=
  fun w =>
    match mkstemp suffix (fs w) (tmp_stems w) with
    | Some (name, rest) =>
        (Ok name,
         {| fs := <[name := Empty]> (fs w); tmp_stems := rest;
            trace := trace w ++ [EvTemp name] |})
    | None =>
        (Raise FileExistsError,
         {| fs := fs w; tmp_stems := []; trace := trace w |})
    end.

(** [pd.read_csv(path)] *)
Definition read_csv (path : string) : M Pandas.DataFrame :=
  fun w =>
    let w' := log (EvRead path) w in
    match fs w !! path with
    | None => (Raise (FileNotFoundError path), w')
    | Some Empty => (Raise EmptyDataError, w')
    | Some (Blob _) => (Raise ParserError, w')
    | Some (Csv grid) => (Pandas.read_frame grid, w')
    end.

(** [Path(path).unlink()] *)
Definition unlink (path : string) : M unit :=
  fun w =>
    let w' := log (EvUnlink path) w in
    match fs w !! path with
    | None => (Raise (FileNotFoundError path), w')
    | Some _ => (Ok tt, with_fs (delete path (fs w)) w')
    end.

(** ** The returned dictionaries *)

Module CreateSparkObject.
Record t : Type := {
  message : string;
  reference : string;
  spark_object_path : string;
  n_genes : Z;
  n_spots : Z;
  total_counts : Z
}.
End CreateSparkObject.

Module SparkVc.
Record t : Type := {
  message : string;
  reference : string;
  fitted_spark_object_path : string;
  n_genes_fitted : Z;
  status : string
}.
End SparkVc.

Module SparkTest.
Record t : Type := {
  message : string;
  reference : string;
  tested_spark_object_path : string;
  n_genes_tested : Z;
  n_significant_genes : Z;
  results_preview : list (list (string * scalar))
}.
End SparkTest.

Definition reference_url : string :=
  "https://github.com/xzhoulab/SPARK/blob/master/docs/pages/02_SPARK_Example.md".

(** ** A deterministic engine *)

Module Engine.

Definition input_flags : list string :=
  ["--counts"; "--location"; "--spark_object"; "--covariates"].

Definition mem (x : string) (l : list string) : bool :=
  existsb (String.eqb x) l.

(** The values that follow the given flags, in order. *)
Fixpoint values_of (flags : list string) (args : list string) : list string :=
  match args with
  | flag :: value :: rest =>
      if mem flag flags then value :: values_of flags rest else values_of flags rest
  | _ => []
  end.

(** The arguments with the value of [--output] taken out. *)
Fixpoint without_output (args : list string) : list string :=
  match args with
  | flag :: value :: rest =>
      if String.eqb flag "--output" then flag :: without_output rest
      else flag :: value :: without_output rest
  | _ => args
  end.

Definition has_suffix (suffix s : string) : bool :=
  String.prefix (String.rev suffix) (String.rev s).

(** Where the two files go: an output path in [.csv] receives the table and
    the object goes to the same name in [.rds]; otherwise the output path
    receives the object and the table goes to the same name in
    [_summary.csv]. *)
Definition store (output : string) (table : Pandas.DataFrame) (object : string)
    (m : gmap string content) : gmap string content :=
  if has_suffix ".csv" output then
    <[output := Csv table]> (<[Py.replace output ".csv" ".rds" := Blob object]> m)
  else
    <[Py.replace output ".rds" "_summary.csv" := Csv table]> (<[output := Blob object]> m).

(** Modelled from the spec: the R scripts run by [Rscript] are not among the
    sources.  Section 6 gives their contract: a process that receives
    flag-style arguments, reads the files they name, writes a binary artifact
    and a delimited table next to each other (same base name, differing
    suffix) and exits.  [deterministic_engine R] is such a process whose exit
    status and written contents are a function [R] of the arguments other than
    the output path and of the contents of the input files. *)
Definition deterministic_engine
    (R : list string -> list (option content) -> Z * Pandas.DataFrame * string)
    (cmd : list string) (m : gmap string content) : Z * gmap string content :=
  let args := skipn 1 cmd in
  let flags := skipn 1 args in
  let inputs := (fun path => m !! path) <$> values_of input_flags flags in
  let '(returncode, table, object) :=
    R (firstn 1 args ++ without_output flags)%list inputs in
  match values_of ["--output"] flags with
  | output :: _ =>
      if returncode =? 0 then (0, store output table object m) else (returncode, m)
  | [] => (2, m)
  end.

End Engine.

(** ** Vocabulary of the statements *)

(** The flags of an argument list: every other argument after the
    interpreter and the script. *)
Fixpoint every_other (args : list string) : list string :=
  match args with
  | flag :: _ :: rest => flag :: every_other rest
  | l => l
  end.

Definition flags_of (cmd : list string) : list string := every_other (skipn 2 cmd).

(** The engine invocations recorded in a trace. *)
Definition runs (t : list event) : list (list string * Z) :=
  omap (fun e => match e with EvRun cmd code => Some (cmd, code) | _ => None end) t.

(** The files a trace reads and the files it deletes. *)
Definition reads (t : list event) : list string :=
  omap (fun e => match e with EvRead p => Some p | _ => None end) t.

Definition unlinks (t : list event) : list string :=
  omap (fun e => match e with EvUnlink p => Some p | _ => None end) t.

(** A call started in [w] with temporary name [output] got as far as reading
    the frame [df] out of the file at [table_of output]. *)
Definition reads_table
    (Rscript : list string -> gmap string content -> Z * gmap string content)
    (suffix : string) (cmd_of : string -> list string) (table_of : string -> string)
    (w : world) (output : string) (df : Pandas.DataFrame) : Prop :=
  exists rest m grid,
    mkstemp suffix (fs w) (tmp_stems w) = Some (output, rest) /\
    Rscript (cmd_of output) (<[output := Empty]> (fs w)) = (0, m) /\
    m !! table_of output = Some (Csv grid) /\
    Pandas.read_frame grid = Ok df.

(** The summary path of [create_spark_object] and [spark_vc]. *)
Definition summary_path (output_rds : string) : string :=
  Py.replace output_rds ".rds" "_summary.csv".

(** A call that stopped at the engine: the exception carries the exit status,
    nothing was read and no dictionary was built. *)
Definition aborted {A} (r : result A * world) (w : world) (output : string)
    (cmd : list string) (returncode : Z) : Prop :=
  r.1 = Raise (CalledProcessError returncode cmd) /\
  (forall a, r.1 <> Ok a) /\
  trace r.2 = (trace w ++ [EvTemp output; EvRun cmd returncode])%list /\
  runs (trace r.2) = (runs (trace w) ++ [(cmd, returncode)])%list /\
  reads (trace r.2) = reads (trace w).

(** The file at [path] was read, then deleted, once, and is gone in [w']. *)
Definition read_then_deleted (w w' : world) (output : string) (cmd : list string)
    (path : string) : Prop :=
  trace w' = (trace w ++ [EvTemp output; EvRun cmd 0; EvRead path; EvUnlink path])%list /\
  unlinks (trace w') = (unlinks (trace w) ++ [path])%list /\
  fs w' !! path = None.

(** The value in the first row of a column. *)
Definition first_row_value (df : Pandas.DataFrame) (name : string) (v : scalar) : Prop :=
  exists s, Pandas.col df name = Ok s /\ Pandas.cells s !! 0%nat = Some v.

(** [x < 1/20] as a comparison of exact values. *)
Definition below_0_05 (x : scalar) : bool :=
  match x with
  | VInt z => 20 * z <? 1
  | VBool b => negb b
  | VFloat (S754_zero _) => true
  | VFloat (S754_infinity negative) => negative
  | VFloat S754_nan => false
  | VFloat (S754_finite true _ _) => true
  | VFloat (S754_finite false m e) =>
      if 0 <=? e then false else 20 * Zpos m <? 2 ^ (- e)
  | VStr _ => false
  end.

(** Ascending order of the values of one numeric column, NaN last. *)
Definition scalar_le (x y : scalar) : bool :=
  match x, y with
  | VInt a, VInt b => a <=? b
  | VFloat a, VFloat b => Pandas.float_le a b
  | VBool a, VBool b => implb a b
  | _, _ => false
  end.

(** [idx] lists the positions of [n] rows (all of them when there are fewer)
    whose [key] is smallest, in ascending order of [key]. *)
Definition smallest_rows (n : nat) (key : Pandas.Series) (idx : list nat) : Prop :=
  NoDup idx /\
  length idx = Nat.min n (Pandas.size key) /\
  (forall i, In i idx -> (i < Pandas.size key)%nat) /\
  (forall i j x y, In i idx -> ~ In j idx ->
     Pandas.cells key !! i = Some x -> Pandas.cells key !! j = Some y ->
     scalar_le x y = true) /\
  (forall r1 r2 i j x y, (r1 < r2)%nat -> idx !! r1 = Some i -> idx !! r2 = Some j ->
     Pandas.cells key !! i = Some x -> Pandas.cells key !! j = Some y ->
     scalar_le x y = true).

(** The preview record of row [i]: exactly the three fields, in this order. *)
Definition preview_record (gene combined adjusted : Pandas.Series) (i : nat)
    (record : list (string * scalar)) : Prop :=
  exists g c a,
    Pandas.cells gene !! i = Some g /\
    Pandas.cells combined !! i = Some c /\
    Pandas.cells adjusted !! i = Some a /\
    record = [("gene", g); ("combined_pvalue", c); ("adjusted_pvalue", a)].







(** The rows of a column paired with their position, sorted by value. *)
Definition by_key {K} (le : K -> K -> bool) (a b : nat * K) : bool := le a.2 b.2.

Definition sorted_pairs {K} (le : K -> K -> bool) (keys : list K) : list (nat * K) :=
  Pandas.stable_sort (by_key le) (combine (seq 0 (length keys)) keys).

(** A suffix of four characters. *)
Definition four (c1 c2 c3 c4 : ascii) : string :=
  String c1 (String c2 (String c3 (String c4 ""))).

(** The arguments [spark_vc] appends for its covariates. *)
Definition covariates_args (covariates_csv : option string) : list string :=
  match covariates_csv with
  | Some path => if String.eqb path "" then [] else ["--covariates"; path]
  | None => []
  end.

(** [TRUE] or [FALSE], as the engine reads a logical. *)
Definition logical (b : bool) : string := if b then "TRUE" else "FALSE".

(** What one call adds to a trace: at most one run, at most one read, and a
    deletion only of the file that was read. *)
Definition single_pass (tail : list event) : Prop :=
  (length (runs tail) <= 1)%nat /\
  (length (reads tail) <= 1)%nat /\
  (unlinks tail = [] \/ unlinks tail = reads tail).

(** ** Concrete worlds, used to run the tools *)

Module Example.

Definition dir : string := "/opt/spark/src/r_scripts/02_spark_example".

(** The double nearest to 0.1. *)
Definition tenth : spec_float := S754_finite false 7205759403792794 (-56).

(** A stand-in for [str] on floats, right on the one float it is given. *)
Definition str_float (f : spec_float) : string :=
  if SFeqb f tenth then "0.1" else "nan".

(** The double [2^k], for [k] in the normal range. *)
Definition pow2 (k : Z) : spec_float := S754_finite false 4503599627370496 (k - 52).

Definition summary_table : Pandas.DataFrame :=
  {| Pandas.nrows := 1;
     Pandas.cols := [ ("n_genes", Pandas.IntS [100]);
                      ("n_spots", Pandas.IntS [50]);
                      ("total_counts", Pandas.FloatS [pow2 15]);
                      ("n_genes_fitted", Pandas.IntS [98]);
                      ("status", Pandas.ObjS ["converged"]) ] |}.

(** Four genes; the third has no adjusted p-value. *)
Definition result_table : Pandas.DataFrame :=
  {| Pandas.nrows := 4;
     Pandas.cols :=
       [ ("gene", Pandas.ObjS ["g1"; "g2"; "g3"; "g4"]);
         ("combined_pvalue", Pandas.FloatS [pow2 (-2); pow2 (-12); pow2 (-3); pow2 (-7)]);
         ("adjusted_pvalue", Pandas.FloatS [pow2 (-1); pow2 (-10); S754_nan; pow2 (-5)]);
         ("rank", Pandas.IntS [3; 1; 4; 2]) ] |}.

(** Twelve genes, eleven of them below the threshold. *)
Definition wide_table : Pandas.DataFrame :=
  {| Pandas.nrows := 12;
     Pandas.cols :=
       [ ("gene", Pandas.ObjS ["a"; "b"; "c"; "d"; "e"; "f"; "g"; "h"; "i"; "j"; "k"; "l"]);
         ("combined_pvalue", Pandas.FloatS (pow2 <$> [-9; -8; -7; -20; -6; -19; -18; -1; -17; -16; -15; -14]));
         ("adjusted_pvalue", Pandas.FloatS (pow2 <$> [-8; -7; -6; -19; -5; -18; -17; -1; -16; -15; -14; -13])) ] |}.

(** A header and no data row. *)
Definition empty_table : Pandas.DataFrame :=
  {| Pandas.nrows := 0;
     Pandas.cols := [ ("gene", Pandas.ObjS []);
                      ("combined_pvalue", Pandas.FloatS []);
                      ("adjusted_pvalue", Pandas.FloatS []) ] |}.

(** An engine that succeeds when its input files exist and then reports
    [table] for [spark_test.R] and [summary_table] for the other scripts. *)
Definition R (table : Pandas.DataFrame) (args : list string)
    (inputs : list (option content)) : Z * Pandas.DataFrame * string :=
  if forallb (fun c : option content => bool_decide (is_Some c)) inputs then
    match args with
    | script_path :: _ =>
        if Engine.has_suffix "spark_test.R" script_path
        then (0, table, "tested object")
        else (0, summary_table, "object")
    | [] => (2, summary_table, "")
    end
  else (1, summary_table, "").

Definition engine (table : Pandas.DataFrame) :=
  Engine.deterministic_engine (R table).

(** An engine that writes nothing and exits with status 1. *)
Definition failing_engine (cmd : list string) (m : gmap string content)
  : Z * gmap string content := (1, m).

Definition inputs : gmap string content :=
  {[ "counts.csv" := Blob "counts"; "loc.csv" := Blob "coordinates";
     "obj.rds" := Blob "object"; "fit.rds" := Blob "fitted object";
     "cov.csv" := Blob "covariates" ]}.

Definition w0 : world :=
  {| fs := inputs; tmp_stems := ["/tmp/tmpk3x9q2ab"; "/tmp/tmp_rz81m0c"]; trace := [] |}.




(** What the tools return in [w0] with [engine result_table]. *)
Definition created : CreateSparkObject.t :=
  {| CreateSparkObject.message := "SPARK object created with 100 genes and 50 spots";
     CreateSparkObject.reference := reference_url;
     CreateSparkObject.spark_object_path := "/tmp/tmpk3x9q2ab.rds";
     CreateSparkObject.n_genes := 100;
     CreateSparkObject.n_spots := 50;
     CreateSparkObject.total_counts := 32768 |}.

Definition tested : SparkTest.t :=
  {| SparkTest.message :=
       "Spatial pattern testing completed. Found 2 significant genes (FDR < 0.05).";
     SparkTest.reference := reference_url;
     SparkTest.tested_spark_object_path := "/tmp/tmpk3x9q2ab.rds";
     SparkTest.n_genes_tested := 4;
     SparkTest.n_significant_genes := 2;
     SparkTest.results_preview :=
       [ [("gene", VStr "g2"); ("combined_pvalue", VFloat (pow2 (-12)));
          ("adjusted_pvalue", VFloat (pow2 (-10)))];
         [("gene", VStr "g4"); ("combined_pvalue", VFloat (pow2 (-7)));
          ("adjusted_pvalue", VFloat (pow2 (-5)))];
         [("gene", VStr "g1"); ("combined_pvalue", VFloat (pow2 (-2)));
          ("adjusted_pvalue", VFloat (pow2 (-1)))];
         [("gene", VStr "g3"); ("combined_pvalue", VFloat (pow2 (-3)));
          ("adjusted_pvalue", VFloat S754_nan)] ] |}.

Definition fitted : SparkVc.t :=
  {| SparkVc.message := "Model parameters estimated for 98 genes";
     SparkVc.reference := reference_url;
     SparkVc.fitted_spark_object_path := "/tmp/tmpk3x9q2ab.rds";
     SparkVc.n_genes_fitted := 98;
     SparkVc.status := "converged" |}.

(** An engine that exits with status 0 and writes nothing. *)
Definition silent_engine (cmd : list string) (m : gmap string content)
  : Z * gmap string content := (0, m).

(** An engine whose summary has a header and no data row. *)
Definition empty_summary_engine (cmd : list string) (m : gmap string content)
  : Z * gmap string content :=
  match Engine.values_of ["--output"] (skipn 2 cmd) with
  | output :: _ =>
      (0, <[summary_path output := Csv empty_table]> (<[output := Blob "object"]> m))
  | [] => (2, m)
  end.

End Example.

(** ** The three tools *)

Section Tools.

(** [str(R_SCRIPT_DIR)]: fixed by where the package is installed. *)
Variable R_SCRIPT_DIR : string.

(** [str(x)] for a float (the shortest decimal that reads back as [x]). *)
Variable str_float : spec_float -> string.

(** The external engine: what running an argument list does to the
    filesystem, and the exit status of the process. *)
Variable Rscript : list string -> gmap string content -> Z * gmap string content.

Local Open Scope tool_scope.

(** [str(R_SCRIPT_DIR / name)] *)
Definition script (name : string) : string := R_SCRIPT_DIR +:+ "/" +:+ name.

(** [str(x)] for a value taken out of a data frame, as an f-string renders it. *)
Definition str_scalar (x : scalar) : string :=
  match x with
  | VInt z => Py.str_int z
  | VFloat f => str_float f
  | VBool b => Py.str_bool b
  | VStr s => s
  end.

(** [subprocess.run(cmd, check=True)]: block until the process exits, raise
    on a non-zero status. *)
Definition subprocess_run (cmd : list string) : M unit :=
  fun w =>
    let '(returncode, m) := Rscript cmd (fs w) in
    let w' := log (EvRun cmd returncode) (with_fs m w) in
    if returncode =? 0 then (Ok tt, w')
    else (Raise (CalledProcessError returncode cmd), w').

(** [summary_df[name][0]] *)
Definition first_of (df : Pandas.DataFrame) (name : string) : result scalar :=
  rbind (Pandas.col df name) Pandas.at0.

Definition create_spark_object_cmd
    (counts_csv location_csv : string) (percentage : spec_float)
    (min_total_counts seed : Z) (output_rds : string) : list string :=
  [ "Rscript"; script "create_spark_object.R";
    "--counts"; counts_csv;
    "--location"; location_csv;
    "--percentage"; str_float percentage;
    "--min_total_counts"; Py.str_int min_total_counts;
    "--seed"; Py.str_int seed;
    "--output"; output_rds ].

Definition create_spark_object_return
    (output_rds : string) (summary_df : Pandas.DataFrame)
  : result CreateSparkObject.t :=
  try! g := first_of summary_df "n_genes" in
  try! s := first_of summary_df "n_spots" in
  let message :=
    "SPARK object created with " +:+ str_scalar g +:+ " genes and "
      +:+ str_scalar s +:+ " spots" in
  try! n_genes := rbind (first_of summary_df "n_genes") PyInt.int in
  try! n_spots := rbind (first_of summary_df "n_spots") PyInt.int in
  try! total_counts := rbind (first_of summary_df "total_counts") PyInt.int in
  Ok {| CreateSparkObject.message := message;
        CreateSparkObject.reference := reference_url;
        CreateSparkObject.spark_object_path := output_rds;
        CreateSparkObject.n_genes := n_genes;
        CreateSparkObject.n_spots := n_spots;
        CreateSparkObject.total_counts := total_counts |}.

Definition create_spark_object
    (counts_csv location_csv : string) (percentage : spec_float)
    (min_total_counts seed : Z) : M CreateSparkObject.t :=
  output_rds <- NamedTemporaryFile ".rds" ;;
  subprocess_run
    (create_spark_object_cmd counts_csv location_csv percentage
       min_total_counts seed output_rds) ;;;
  let summary_csv := Py.replace output_rds ".rds" "_summary.csv" in
  summary_df <- read_csv summary_csv ;;
  unlink summary_csv ;;;
  lift (create_spark_object_return output_rds summary_df).

Definition spark_vc_cmd
    (spark_object_rds : string) (covariates_csv : option string)
    (num_core : Z) (verbose : bool) (seed : Z) (output_rds : string) : list string :=
  let cmd :=
    [ "Rscript"; script "spark_vc.R";
      "--spark_object"; spark_object_rds;
      "--num_core"; Py.str_int num_core;
      "--verbose"; Py.upper (Py.str_bool verbose);
      "--seed"; Py.str_int seed;
      "--output"; output_rds ] in
  match covariates_csv with
  | Some path => if Py.truthy covariates_csv then cmd ++ ["--covariates"; path] else cmd
  | None => cmd
  end.

Definition spark_vc_return
    (output_rds : string) (summary_df : Pandas.DataFrame) : result SparkVc.t :=
  try! g := first_of summary_df "n_genes_fitted" in
  let message := "Model parameters estimated for " +:+ str_scalar g +:+ " genes" in
  try! n_genes_fitted := rbind (first_of summary_df "n_genes_fitted") PyInt.int in
  try! status := first_of summary_df "status" in
  Ok {| SparkVc.message := message;
        SparkVc.reference := reference_url;
        SparkVc.fitted_spark_object_path := output_rds;
        SparkVc.n_genes_fitted := n_genes_fitted;
        SparkVc.status := str_scalar status |}.

Definition spark_vc
    (spark_object_rds : string) (covariates_csv : option string)
    (num_core : Z) (verbose : bool) (seed : Z) : M SparkVc.t :=
  output_rds <- NamedTemporaryFile ".rds" ;;
  subprocess_run
    (spark_vc_cmd spark_object_rds covariates_csv num_core verbose seed output_rds) ;;;
  let summary_csv := Py.replace output_rds ".rds" "_summary.csv" in
  summary_df <- read_csv summary_csv ;;
  unlink summary_csv ;;;
  lift (spark_vc_return output_rds summary_df).

Definition spark_test_cmd
    (fitted_spark_object_rds : string) (check_positive verbose : bool)
    (seed : Z) (output_csv : string) : list string :=
  [ "Rscript"; script "spark_test.R";
    "--spark_object"; fitted_spark_object_rds;
    "--check_positive"; Py.upper (Py.str_bool check_positive);
    "--verbose"; Py.upper (Py.str_bool verbose);
    "--seed"; Py.str_int seed;
    "--output"; output_csv ].

Definition preview_columns : list string :=
  ["gene"; "combined_pvalue"; "adjusted_pvalue"].

Definition spark_test_return
    (tested_spark_rds : string) (results_df : Pandas.DataFrame) : result SparkTest.t :=
  try! adjusted := Pandas.col results_df "adjusted_pvalue" in
  try! mask := Pandas.lt_0_05 adjusted in
  let n_significant := Pandas.sum mask in
  let message :=
    "Spatial pattern testing completed. Found " +:+ Py.str_int n_significant
      +:+ " significant genes (FDR < 0.05)." in
  try! top := Pandas.nsmallest 10 "adjusted_pvalue" results_df in
  try! preview := Pandas.select preview_columns top in
  Ok {| SparkTest.message := message;
        SparkTest.reference := reference_url;
        SparkTest.tested_spark_object_path := tested_spark_rds;
        SparkTest.n_genes_tested := Pandas.len results_df;
        SparkTest.n_significant_genes := n_significant;
        SparkTest.results_preview := Pandas.to_dict_records preview |}.

Definition spark_test
    (fitted_spark_object_rds : string) (check_positive verbose : bool)
    (seed : Z) : M SparkTest.t :=
  output_csv <- NamedTemporaryFile ".csv" ;;
  subprocess_run
    (spark_test_cmd fitted_spark_object_rds check_positive verbose seed output_csv) ;;;
  results_df <- read_csv output_csv ;;
  let tested_spark_rds := Py.replace output_csv ".csv" ".rds" in
  unlink output_csv ;;;
  lift (spark_test_return tested_spark_rds results_df).


(** ** The shape shared by the three tools

    Each tool allocates a temporary name, runs the engine, reads one table,
    deletes it and builds its dictionary.  [tool_shape] is that sequence with
    the four things that differ left open; each tool is an instance of it. *)

Definition tool_shape {A} (suffix : string) (cmd_of : string -> list string)
    (table_of : string -> string)
    (finish : string -> Pandas.DataFrame -> result A) : M A :=
  output <- NamedTemporaryFile suffix ;;
  subprocess_run (cmd_of output) ;;;
  table <- read_csv (table_of output) ;;
  unlink (table_of output) ;;;
  lift (finish output table).

(** The world once the temporary file exists. *)
Definition after_temp (w : world) (output : string) (rest : list string) : world :=
  {| fs := <[output := Empty]> (fs w); tmp_stems := rest;
     trace := trace w ++ [EvTemp output] |}.

(** The world once the engine has exited with [returncode], leaving [m]. *)
Definition after_run (w : world) (output : string) (rest : list string)
    (cmd : list string) (returncode : Z) (m : gmap string content) : world :=
  {| fs := m; tmp_stems := rest;
     trace := trace w ++ [EvTemp output; EvRun cmd returncode] |}.

(** The world once the table at [path] has been read and deleted. *)
Definition after_unlink (w : world) (output : string) (rest : list string)
    (cmd : list string) (m : gmap string content) (path : string) : world :=
  {| fs := delete path m; tmp_stems := rest;
     trace := trace w ++ [EvTemp output; EvRun cmd 0; EvRead path; EvUnlink path] |}.

(** ** Sorting *)

Section SortFacts.

Context {A : Type} (le : A -> A -> bool).
Hypothesis le_total : forall x y, le x y = false -> le y x = true.
Hypothesis le_trans : forall x y z, le x y = true -> le y z = true -> le x z = true.

Lemma insert_perm x l : Permutation (Pandas.insert le x l) (x :: l).
Proof.
  induction l as [|y l IH]; simpl; [reflexivity|].
  destruct (le x y); [reflexivity|].
  rewrite IH. apply perm_swap.
Qed.

Lemma stable_sort_perm l : Permutation (Pandas.stable_sort le l) l.
Proof.
  induction l as [|x l IH]; simpl; [reflexivity|].
  fold (Pandas.stable_sort le l). rewrite insert_perm, IH. reflexivity.
Qed.

Lemma insert_sorted x l :
  StronglySorted (fun a b => le a b = true) l ->
  StronglySorted (fun a b => le a b = true) (Pandas.insert le x l).
Proof.
  induction 1 as [|y l Hs IH Hy]; simpl.
  - repeat constructor.
  - destruct (le x y) eqn:E.
    + constructor; [constructor; assumption|].
      constructor; [exact E|].
      eapply Forall_impl; [exact Hy|]. intros z Hz. simpl in Hz. eauto.
    + constructor; [exact IH|].
      assert (Hp := insert_perm x l).
      rewrite List.Forall_forall. intros z Hz.
      apply (Permutation_in _ Hp) in Hz. destruct Hz as [<-|Hz]; [auto|].
      rewrite List.Forall_forall in Hy. auto.
Qed.

Lemma stable_sort_sorted l :
  StronglySorted (fun a b => le a b = true) (Pandas.stable_sort le l).
Proof.
  induction l as [|x l IH]; simpl; [constructor|].
  apply insert_sorted. exact IH.
Qed.

End SortFacts.

Lemma sorted_lookup_le {A} (R : A -> A -> Prop) (l : list A) r1 r2 x y :
  StronglySorted R l -> (r1 < r2)%nat -> l !! r1 = Some x -> l !! r2 = Some y -> R x y.
Proof.
  intros Hs. revert r1 r2.
  induction Hs as [|a l Hs IH Ha]; intros r1 r2 Hlt H1 H2; [discriminate|].
  destruct r2 as [|r2]; [lia|]. simpl in H2.
  destruct r1 as [|r1]; simpl in H1.
  - injection H1 as <-. rewrite List.Forall_forall in Ha. apply Ha.
    apply list_elem_of_In. eapply list_elem_of_lookup_2. exact H2.
  - apply (IH r1 r2); [lia|assumption..].
Qed.

Lemma combine_seq_lookup {K} (keys : list K) (s i : nat) (k : K) :
  In (i, k) (combine (seq s (length keys)) keys) <->
  (s <= i)%nat /\ keys !! (i - s)%nat = Some k.
Proof.
  revert s. induction keys as [|a keys IH]; intros s; simpl.
  - split; [tauto|]. intros [_ H]. discriminate.
  - rewrite IH. split.
    + intros [[= <- <-]|[Hle Hk]].
      * split; [lia|]. replace (s - s)%nat with 0%nat by lia. reflexivity.
      * split; [lia|]. replace (i - s)%nat with (S (i - S s)) by lia. exact Hk.
    + intros [Hle Hk]. destruct (Nat.eq_dec i s) as [->|Hne].
      * left. replace (s - s)%nat with 0%nat in Hk by lia. simpl in Hk. congruence.
      * right. split; [lia|].
        replace (i - s)%nat with (S (i - S s)) in Hk by lia. exact Hk.
Qed.

Lemma combine_seq_fst {K} (keys : list K) (s : nat) :
  (combine (seq s (length keys)) keys).*1 = seq s (length keys).
Proof.
  revert s. induction keys as [|a keys IH]; intros s; simpl; [reflexivity|].
  f_equal. apply IH.
Qed.

Section ArgsortFacts.

Context {K : Type} (le : K -> K -> bool).
Hypothesis le_total : forall x y, le x y = false -> le y x = true.
Hypothesis le_trans : forall x y z, le x y = true -> le y z = true -> le x z = true.

Variable keys : list K.

Notation sorted := (sorted_pairs le keys).

Lemma argsort_unfold : Pandas.argsort le keys = sorted.*1.
Proof. reflexivity. Qed.

Lemma sorted_entry i k : In (i, k) sorted <-> keys !! i = Some k.
Proof.
  unfold sorted_pairs. split.
  - intros H. apply (Permutation_in _ (stable_sort_perm (by_key le) _)) in H.
    apply combine_seq_lookup in H. destruct H as [_ H].
    rewrite Nat.sub_0_r in H. exact H.
  - intros H.
    apply (Permutation_in _ (Permutation_sym (stable_sort_perm (by_key le) _))).
    apply combine_seq_lookup. rewrite Nat.sub_0_r. split; [lia|exact H].
Qed.

Lemma sorted_by_key : StronglySorted (fun a b => by_key le a b = true) sorted.
Proof.
  apply stable_sort_sorted; unfold by_key; eauto.
Qed.

Lemma argsort_perm : Permutation (Pandas.argsort le keys) (seq 0 (length keys)).
Proof.
  rewrite argsort_unfold. unfold sorted_pairs.
  rewrite (stable_sort_perm (by_key le)). rewrite combine_seq_fst. reflexivity.
Qed.

Lemma argsort_take_spec (n : nat) :
  let idx := firstn n (Pandas.argsort le keys) in
  NoDup idx /\
  length idx = Nat.min n (length keys) /\
  (forall i, In i idx -> (i < length keys)%nat) /\
  (forall i j x y, In i idx -> ~ In j idx ->
     keys !! i = Some x -> keys !! j = Some y -> le x y = true) /\
  (forall r1 r2 i j x y, (r1 < r2)%nat -> idx !! r1 = Some i -> idx !! r2 = Some j ->
     keys !! i = Some x -> keys !! j = Some y -> le x y = true).
Proof.
  intros idx.
  assert (Hnd : NoDup (Pandas.argsort le keys)).
  { rewrite argsort_perm. apply NoDup_seq. }
  assert (Hidx : idx = (take n sorted).*1).
  { unfold idx. rewrite argsort_unfold. symmetry. apply fmap_take. }
  assert (Hpos : forall r i, idx !! r = Some i ->
            exists k, sorted !! r = Some (i, k) /\ keys !! i = Some k /\ (r < n)%nat).
  { intros r i Hr. rewrite Hidx, list_lookup_fmap in Hr.
    destruct (take n sorted !! r) as [[i' k]|] eqn:E; [|discriminate].
    simpl in Hr. injection Hr as ->.
    apply lookup_take_Some in E. destruct E as [E Hlt].
    exists k. split; [exact E|]. split; [|exact Hlt].
    apply sorted_entry. apply list_elem_of_In. eapply list_elem_of_lookup_2. exact E. }
  repeat split.
  - unfold idx. rewrite <- (take_drop n (Pandas.argsort le keys)) in Hnd.
    apply NoDup_app in Hnd. tauto.
  - unfold idx. rewrite length_take, (Permutation_length argsort_perm), length_seq.
    reflexivity.
  - intros i Hi. unfold idx in Hi.
    assert (Hin : In i (Pandas.argsort le keys)).
    { apply list_elem_of_In. apply list_elem_of_In in Hi.
      eapply subseteq_take; eauto. }
    apply (Permutation_in _ argsort_perm) in Hin. apply in_seq in Hin. lia.
  - intros i j x y Hi Hj Hx Hy.
    apply list_elem_of_In, list_elem_of_lookup in Hi. destruct Hi as [r1 Hr1].
    destruct (Hpos r1 i Hr1) as (k & Hs1 & Hk & Hlt).
    assert (k = x) by congruence. subst k.
    assert (Hjs : In (j, y) sorted) by (apply sorted_entry; exact Hy).
    apply list_elem_of_In, list_elem_of_lookup in Hjs. destruct Hjs as [r2 Hr2].
    destruct (Nat.lt_ge_cases r2 n) as [Hin|Hge].
    + exfalso. apply Hj. apply list_elem_of_In. rewrite Hidx.
      apply (list_elem_of_fmap_2 fst (take n sorted) (j, y)).
      eapply list_elem_of_lookup_2. rewrite lookup_take_lt; eauto.
    + apply (sorted_lookup_le _ sorted r1 r2 (i, x) (j, y) sorted_by_key);
        [lia|assumption..].
  - intros r1 r2 i j x y Hlt Hr1 Hr2 Hx Hy.
    destruct (Hpos r1 i Hr1) as (k1 & Hs1 & Hk1 & _).
    destruct (Hpos r2 j Hr2) as (k2 & Hs2 & Hk2 & _).
    assert (k1 = x) by congruence. assert (k2 = y) by congruence. subst.
    apply (sorted_lookup_le _ sorted r1 r2 (i, x) (j, y) sorted_by_key);
      assumption.
Qed.

End ArgsortFacts.

(** ** Orders on the values of a column *)

Lemma Zle_total x y : (x <=? y) = false -> (y <=? x) = true.
Proof. lia. Qed.

Lemma Zle_trans x y z : (x <=? y) = true -> (y <=? z) = true -> (x <=? z) = true.
Proof. lia. Qed.

Lemma bool_le_total x y : Pandas.bool_le x y = false -> Pandas.bool_le y x = true.
Proof. destruct x, y; simpl; congruence. Qed.

Lemma bool_le_trans x y z :
  Pandas.bool_le x y = true -> Pandas.bool_le y z = true -> Pandas.bool_le x z = true.
Proof. destruct x, y, z; simpl; congruence. Qed.

Ltac compare_cases :=
  repeat match goal with
  | |- context [(?a ?= ?b)%Z] => destruct (Z.compare_spec a b)
  | |- context [(?a ?= ?b)%positive] => destruct (Pos.compare_spec a b)
  end.

Lemma float_le_total x y : Pandas.float_le x y = false -> Pandas.float_le y x = true.
Proof.
  unfold Pandas.float_le.
  destruct x as [s|s| |s m e], y as [s'|s'| |s' m' e']; simpl;
    try destruct s; try destruct s'; simpl; try congruence;
    change (PosDef.Pos.compare_cont Eq) with Pos.compare;
    compare_cases; simpl; try congruence; try lia.
Qed.

Lemma float_le_trans x y z :
  Pandas.float_le x y = true -> Pandas.float_le y z = true -> Pandas.float_le x z = true.
Proof.
  unfold Pandas.float_le.
  destruct x as [s|s| |s m e], y as [s'|s'| |s' m' e'], z as [s''|s''| |s'' m'' e''];
    simpl; try destruct s; try destruct s'; try destruct s''; simpl; try congruence;
    change (PosDef.Pos.compare_cont Eq) with Pos.compare;
    compare_cases; simpl; try congruence; try lia.
Qed.

(** ** Frames *)

Lemma cells_length_lookup (s : Pandas.Series) i :
  (i < Pandas.size s)%nat -> exists x, Pandas.cells s !! i = Some x.
Proof. intros H. apply lookup_lt_is_Some_2 in H. destruct H as [x H]. eauto. Qed.

Lemma order_of_smallest (n : nat) (s : Pandas.Series) (order : list nat) :
  Pandas.order_of s = Ok order -> smallest_rows n s (firstn n order).
Proof.
  destruct s as [l|l|l|l]; simpl; intros [= <-].
  - destruct (argsort_take_spec Z.leb Zle_total Zle_trans l n)
      as (H1 & H2 & H3 & H4 & H5).
    unfold smallest_rows, Pandas.size. simpl. rewrite length_fmap.
    repeat split; auto.
    + intros i j x y Hi Hj Hx Hy. rewrite list_lookup_fmap in Hx, Hy.
      destruct (l !! i) as [a|] eqn:Ea; [|discriminate].
      destruct (l !! j) as [b|] eqn:Eb; [|discriminate].
      injection Hx as <-. injection Hy as <-. simpl. eauto.
    + intros r1 r2 i j x y Hlt Hr1 Hr2 Hx Hy. rewrite list_lookup_fmap in Hx, Hy.
      destruct (l !! i) as [a|] eqn:Ea; [|discriminate].
      destruct (l !! j) as [b|] eqn:Eb; [|discriminate].
      injection Hx as <-. injection Hy as <-. simpl. eauto.
  - destruct (argsort_take_spec Pandas.float_le float_le_total float_le_trans l n)
      as (H1 & H2 & H3 & H4 & H5).
    unfold smallest_rows, Pandas.size. simpl. rewrite length_fmap.
    repeat split; auto.
    + intros i j x y Hi Hj Hx Hy. rewrite list_lookup_fmap in Hx, Hy.
      destruct (l !! i) as [a|] eqn:Ea; [|discriminate].
      destruct (l !! j) as [b|] eqn:Eb; [|discriminate].
      injection Hx as <-. injection Hy as <-. simpl. eauto.
    + intros r1 r2 i j x y Hlt Hr1 Hr2 Hx Hy. rewrite list_lookup_fmap in Hx, Hy.
      destruct (l !! i) as [a|] eqn:Ea; [|discriminate].
      destruct (l !! j) as [b|] eqn:Eb; [|discriminate].
      injection Hx as <-. injection Hy as <-. simpl. eauto.
  - destruct (argsort_take_spec Pandas.bool_le bool_le_total bool_le_trans l n)
      as (H1 & H2 & H3 & H4 & H5).
    unfold smallest_rows, Pandas.size. simpl. rewrite length_fmap.
    repeat split; auto.
    + intros i j x y Hi Hj Hx Hy. rewrite list_lookup_fmap in Hx, Hy.
      destruct (l !! i) as [a|] eqn:Ea; [|discriminate].
      destruct (l !! j) as [b|] eqn:Eb; [|discriminate].
      injection Hx as <-. injection Hy as <-. simpl. eauto.
    + intros r1 r2 i j x y Hlt Hr1 Hr2 Hx Hy. rewrite list_lookup_fmap in Hx, Hy.
      destruct (l !! i) as [a|] eqn:Ea; [|discriminate].
      destruct (l !! j) as [b|] eqn:Eb; [|discriminate].
      injection Hx as <-. injection Hy as <-. simpl. eauto.
Qed.

Lemma assoc_take name idx (l : list (string * Pandas.Series)) :
  Pandas.assoc name ((fun cs => (cs.1, Pandas.take_rows idx cs.2)) <$> l)
  = Pandas.take_rows idx <$> Pandas.assoc name l.
Proof.
  induction l as [|[c s] l IH]; simpl; [reflexivity|].
  destruct (String.eqb c name); [reflexivity|exact IH].
Qed.

Lemma pick_fmap {A B} (f : A -> B) idx (l : list A) :
  Pandas.pick idx (f <$> l) = f <$> Pandas.pick idx l.
Proof.
  unfold Pandas.pick. induction idx as [|i idx IH]; [reflexivity|].
  cbn [omap list_omap]. rewrite list_lookup_fmap.
  destruct (l !! i); cbn [fmap option_fmap option_map]; rewrite IH; reflexivity.
Qed.

Lemma cells_take_rows idx s :
  Pandas.cells (Pandas.take_rows idx s) = Pandas.pick idx (Pandas.cells s).
Proof. destruct s; simpl; rewrite pick_fmap; reflexivity. Qed.

Lemma pick_lookup {A} (l : list A) idx r i :
  (forall j, In j idx -> (j < length l)%nat) ->
  idx !! r = Some i -> Pandas.pick idx l !! r = l !! i.
Proof.
  unfold Pandas.pick. revert r. induction idx as [|j idx IH]; intros r Hv Hr;
    [discriminate|].
  simpl. destruct (lookup_lt_is_Some_2 l j (Hv j (or_introl eq_refl))) as [x Hx].
  rewrite Hx. destruct r as [|r]; simpl in *.
  - injection Hr as <-. congruence.
  - apply IH; [|exact Hr]. intros j' Hj'. apply Hv. right. exact Hj'.
Qed.

Lemma well_formed_col df name s :
  Pandas.well_formed df = true -> Pandas.col df name = Ok s ->
  Pandas.size s = Pandas.nrows df /\ Pandas.valid_series s = true.
Proof.
  unfold Pandas.well_formed, Pandas.col. intros Hwf Hc.
  assert (Hall : forallb (fun cs : string * Pandas.Series =>
                   Nat.eqb (Pandas.size cs.2) (Pandas.nrows df)
                   && Pandas.valid_series cs.2) (Pandas.cols df) = true).
  { destruct (Pandas.cols df); [discriminate|exact Hwf]. }
  clear Hwf. induction (Pandas.cols df) as [|[c s'] l IH]; simpl in *; [discriminate|].
  apply andb_true_iff in Hall. destruct Hall as [Hhd Htl].
  destruct (String.eqb c name).
  - injection Hc as <-. apply andb_true_iff in Hhd. destruct Hhd as [Hsz Hv].
    apply Nat.eqb_eq in Hsz. auto.
  - apply IH; assumption.
Qed.

Lemma read_frame_well_formed grid df :
  Pandas.read_frame grid = Ok df -> Pandas.well_formed df = true.
Proof.
  unfold Pandas.read_frame. destruct (Pandas.well_formed grid) eqn:Hwf; [|discriminate].
  destruct (Pandas.nrows grid) eqn:Hn; intros [= <-]; [|exact Hwf].
  unfold Pandas.well_formed in *. simpl.
  destruct (Pandas.cols grid) as [|cs l]; [discriminate|]. simpl.
  clear. induction l as [|cs' l IH]; simpl; [reflexivity|exact IH].
Qed.

(** A table without data rows is read with every column of dtype [object]. *)
Lemma read_frame_no_rows grid df name s :
  Pandas.read_frame grid = Ok df -> Pandas.nrows df = 0%nat ->
  Pandas.col df name = Ok s -> s = Pandas.ObjS [].
Proof.
  unfold Pandas.read_frame. destruct (Pandas.well_formed grid); [|discriminate].
  destruct (Pandas.nrows grid) eqn:Hn; intros [= <-]; simpl.
  - intros _. unfold Pandas.col. simpl.
    induction (Pandas.cols grid) as [|[c s'] l IH]; simpl; [discriminate|].
    destruct (String.eqb c name); [congruence|exact IH].
  - rewrite Hn. discriminate.
Qed.

(** ** Doubles and the 0.05 threshold *)

Lemma digits2_pos_bounds m :
  2 ^ (Zpos (digits2_pos m) - 1) <= Zpos m < 2 ^ Zpos (digits2_pos m).
Proof.
  induction m as [m IH|m IH|]; simpl digits2_pos.
  - rewrite Pos2Z.inj_succ, (Pos2Z.inj_xI m).
    replace (Z.succ (Zpos (digits2_pos m)) - 1)
      with (Z.succ (Zpos (digits2_pos m) - 1)) by lia.
    rewrite !Z.pow_succ_r by lia. lia.
  - rewrite Pos2Z.inj_succ, (Pos2Z.inj_xO m).
    replace (Z.succ (Zpos (digits2_pos m)) - 1)
      with (Z.succ (Zpos (digits2_pos m) - 1)) by lia.
    rewrite !Z.pow_succ_r by lia. lia.
  - simpl. lia.
Qed.

Lemma binary64_mantissa s m e :
  Pandas.binary64 (S754_finite s m e) = true ->
  Zpos m < 2 ^ 53 /\ (-1074 < e -> 2 ^ 52 <= Zpos m).
Proof.
  unfold Pandas.binary64, valid_binary, bounded, canonical_mantissa, fexp, emin.
  intros H. apply andb_true_iff in H. destruct H as [H _].
  apply Z.eqb_eq in H.
  pose proof (digits2_pos_bounds m) as [Hlo Hhi].
  split.
  - eapply Z.lt_le_trans; [exact Hhi|]. apply Z.pow_le_mono_r; lia.
  - intros He. assert (Zpos (digits2_pos m) = 53) as Hd by lia.
    rewrite Hd in Hlo. exact Hlo.
Qed.

Lemma threshold_case (m c : positive) (p : Z) :
  20 * (Zpos c - 1) < p -> p < 20 * Zpos c ->
  match PosDef.Pos.compare_cont Eq m c with Lt => true | _ => false end
  = (20 * Zpos m <? p).
Proof.
  intros H1 H2. change (PosDef.Pos.compare_cont Eq m c) with (m ?= c)%positive.
  destruct (Pos.compare_spec m c) as [->|H|H]; symmetry;
    [apply Z.ltb_ge | apply Z.ltb_lt | apply Z.ltb_ge]; lia.
Qed.

Lemma lt_0_05_finite m e :
  Zpos m < 2 ^ 53 -> (-1074 < e -> 2 ^ 52 <= Zpos m) ->
  SFltb (S754_finite false m e) Pandas.c0_05
  = below_0_05 (VFloat (S754_finite false m e)).
Proof.
  intros Hhi Hlo.
  assert (2 ^ 53 = 9007199254740992) as E53 by (vm_compute; reflexivity).
  assert (2 ^ 52 = 4503599627370496) as E52 by (vm_compute; reflexivity).
  assert (2 ^ 56 = 72057594037927936) as E56 by (vm_compute; reflexivity).
  assert (2 ^ 58 = 288230376151711744) as E58 by (vm_compute; reflexivity).
  rewrite E53 in Hhi. rewrite E52 in Hlo.
  unfold SFltb, SFcompare, Pandas.c0_05, below_0_05. cbv beta iota.
  destruct (Z.lt_trichotomy e (-57)) as [Hlt|[->|Hgt]].
  - rewrite (proj2 (Z.compare_lt_iff e (-57)) Hlt).
    rewrite (proj2 (Z.leb_gt 0 e)) by lia.
    symmetry. apply Z.ltb_lt.
    assert (2 ^ 58 <= 2 ^ (- e)) as Hp by (apply Z.pow_le_mono_r; lia).
    rewrite E58 in Hp. lia.
  - rewrite Z.compare_refl.
    replace (0 <=? -57) with false by reflexivity.
    apply threshold_case; vm_compute; reflexivity.
  - rewrite (proj2 (Z.compare_gt_iff e (-57))) by lia.
    destruct (Z.leb_spec 0 e); [reflexivity|].
    symmetry. apply Z.ltb_ge.
    assert (2 ^ (- e) <= 2 ^ 56) as Hp by (apply Z.pow_le_mono_r; lia).
    rewrite E56 in Hp. lia.
Qed.

Lemma lt_0_05_exact f :
  Pandas.binary64 f = true -> SFltb f Pandas.c0_05 = below_0_05 (VFloat f).
Proof.
  destruct f as [s|s| |s m e]; intros Hv.
  - reflexivity.
  - destruct s; reflexivity.
  - reflexivity.
  - destruct s; [reflexivity|].
    destruct (binary64_mantissa false m e Hv) as [Hhi Hlo].
    exact (lt_0_05_finite m e Hhi Hlo).
Qed.

Lemma lt_0_05_mask s mask :
  Pandas.valid_series s = true -> Pandas.lt_0_05 s = Ok mask ->
  mask = below_0_05 <$> Pandas.cells s.
Proof.
  destruct s as [l|l|l|l]; simpl; intros Hv.
  - intros [= <-]. rewrite <- list_fmap_compose. apply list_fmap_ext.
    intros i z _. simpl. lia.
  - intros [= <-]. rewrite <- list_fmap_compose.
    induction l as [|f l IH]; [reflexivity|].
    simpl in Hv. apply andb_true_iff in Hv. destruct Hv as [Hf Hl].
    rewrite !fmap_cons. rewrite (IH Hl). f_equal. apply lt_0_05_exact. exact Hf.
  - intros [= <-]. rewrite <- list_fmap_compose. reflexivity.
  - destruct l; [intros [= <-]; reflexivity|discriminate].
Qed.

Lemma sum_count {A} (f : A -> bool) (l : list A) :
  Pandas.sum (f <$> l) = Z.of_nat (length (List.filter f l)).
Proof.
  induction l as [|x l IH]; [reflexivity|].
  rewrite fmap_cons. unfold Pandas.sum in *. simpl. rewrite IH.
  destruct (f x); simpl length; lia.
Qed.

(** ** What [spark_test] builds from the table *)

Lemma col_take top idx df name s :
  Pandas.cols top = (fun cs => (cs.1, Pandas.take_rows idx cs.2)) <$> Pandas.cols df ->
  Pandas.col top name = Ok s ->
  exists s0, Pandas.col df name = Ok s0 /\ s = Pandas.take_rows idx s0.
Proof.
  unfold Pandas.col. intros -> H. rewrite assoc_take in H.
  destruct (Pandas.assoc name (Pandas.cols df)) as [s0|]; [|discriminate].
  injection H as <-. eauto.
Qed.

Lemma spark_test_return_inv tested df d :
  Pandas.well_formed df = true ->
  spark_test_return tested df = Ok d ->
  exists gene combined adjusted mask order,
    Pandas.col df "gene" = Ok gene /\
    Pandas.col df "combined_pvalue" = Ok combined /\
    Pandas.col df "adjusted_pvalue" = Ok adjusted /\
    Pandas.lt_0_05 adjusted = Ok mask /\
    Pandas.order_of adjusted = Ok order /\
    SparkTest.tested_spark_object_path d = tested /\
    SparkTest.n_genes_tested d = Pandas.len df /\
    SparkTest.n_significant_genes d = Pandas.sum mask /\
    Forall2 (preview_record gene combined adjusted) (firstn 10 order)
      (SparkTest.results_preview d).
Proof.
  intros Hwf. unfold spark_test_return.
  destruct (Pandas.col df "adjusted_pvalue") as [adjusted|] eqn:Ha; [|discriminate].
  simpl. destruct (Pandas.lt_0_05 adjusted) as [mask|] eqn:Hm; [|discriminate].
  simpl. unfold Pandas.nsmallest. rewrite Ha. simpl.
  destruct (Pandas.order_of adjusted) as [order|] eqn:Ho; [|discriminate].
  simpl. set (idx := firstn 10 order).
  set (top := {| Pandas.nrows := length idx;
                 Pandas.cols := (fun cs => (cs.1, Pandas.take_rows idx cs.2))
                                  <$> Pandas.cols df |}).
  unfold Pandas.select, preview_columns. simpl.
  destruct (Pandas.col top "gene") as [tg|] eqn:Htg; [|discriminate].
  simpl. destruct (Pandas.col top "combined_pvalue") as [tc|] eqn:Htc; [|discriminate].
  simpl. destruct (Pandas.col top "adjusted_pvalue") as [ta|] eqn:Hta; [|discriminate].
  simpl. intros [= <-]. simpl.
  destruct (col_take top idx df _ _ eq_refl Htg) as (gene & Hg & ->).
  destruct (col_take top idx df _ _ eq_refl Htc) as (combined & Hc & ->).
  destruct (col_take top idx df _ _ eq_refl Hta) as (adjusted' & Ha' & ->).
  assert (adjusted' = adjusted) as -> by congruence.
  exists gene, combined, adjusted, mask, order.
  repeat (split; [assumption || reflexivity|]).
  destruct (well_formed_col df _ _ Hwf Hg) as [Hsg _].
  destruct (well_formed_col df _ _ Hwf Hc) as [Hsc _].
  destruct (well_formed_col df _ _ Hwf Ha) as [Hsa _].
  destruct (order_of_smallest 10 adjusted order Ho) as (_ & _ & Hrange & _).
  fold idx in Hrange |- *.
  apply Forall2_same_length_lookup_2.
  - unfold Pandas.to_dict_records. simpl. rewrite length_fmap, length_seq. reflexivity.
  - intros r i record Hi Hrec.
    unfold Pandas.to_dict_records in Hrec. simpl in Hrec.
    rewrite list_lookup_fmap in Hrec.
    destruct (seq 0 (length idx) !! r) as [r'|] eqn:Hseq; [|discriminate].
    apply lookup_seq in Hseq. destruct Hseq as [-> _]. simpl in Hrec.
    assert (Hin : In i idx).
    { apply list_elem_of_In. eapply list_elem_of_lookup_2. exact Hi. }
    pose proof (Hrange i Hin) as Hlt.
    rewrite !cells_take_rows in Hrec.
    rewrite (pick_lookup (Pandas.cells gene) idx r i) in Hrec;
      [|intros j Hj; pose proof (Hrange j Hj); fold (Pandas.size gene); lia|exact Hi].
    rewrite (pick_lookup (Pandas.cells combined) idx r i) in Hrec;
      [|intros j Hj; pose proof (Hrange j Hj); fold (Pandas.size combined); lia|exact Hi].
    rewrite (pick_lookup (Pandas.cells adjusted) idx r i) in Hrec;
      [|intros j Hj; pose proof (Hrange j Hj); fold (Pandas.size adjusted); lia|exact Hi].
    destruct (cells_length_lookup gene i) as [g Hgi]; [lia|].
    destruct (cells_length_lookup combined i) as [c Hci]; [lia|].
    destruct (cells_length_lookup adjusted i) as [a Hai]; [lia|].
    rewrite Hgi, Hci, Hai in Hrec. simpl in Hrec. injection Hrec as <-.
    exists g, c, a. auto.
Qed.

(** ** [str.replace] on the temporary names *)

Lemma string_app_cons a (s t : string) : String a s +:+ t = String a (s +:+ t).
Proof. reflexivity. Qed.


Lemma prefix_cons a s b t :
  String.prefix (String a s) (String b t)
  = if ascii_dec a b then String.prefix s t else false.
Proof. reflexivity. Qed.


Lemma contains_cons old a s :
  Py.contains old (String a s) = String.prefix old (String a s) || Py.contains old s.
Proof. reflexivity. Qed.


Lemma replace_scan_step fuel old new a s :
  Py.replace_scan (S fuel) old new (String a s)
  = if String.prefix old (String a s)
    then new +:+ Py.replace_scan fuel old new (Py.drop (String.length old) (String a s))
    else String a (Py.replace_scan fuel old new s).
Proof. reflexivity. Qed.


Section SuffixReplacement.

Variables c1 c2 c3 c4 : ascii.
Hypothesis H2 : c2 <> c1.
Hypothesis H3 : c3 <> c1.
Hypothesis H4 : c4 <> c1.

Notation old := (four c1 c2 c3 c4).

Lemma prefix_old_self : String.prefix old old = true.
Proof.
  unfold four. rewrite !prefix_cons.
  repeat match goal with
         | |- context [ascii_dec ?x ?x] => destruct (ascii_dec x x); [|congruence]
         end.
  reflexivity.
Qed.


Lemma contains_suffix stem : Py.contains old (stem +:+ old) = true.
Proof.
  induction stem as [|a s IH].
  - change ("" +:+ ?t) with t. unfold four at 2. rewrite contains_cons.
    change (String c1 (String c2 (String c3 (String c4 "")))) with old.
    rewrite prefix_old_self. reflexivity.
  - rewrite string_app_cons, contains_cons, IH. apply orb_true_r.
Qed.


End SuffixReplacement.






(** * Properties *)

(** ** Temporary names *)

Lemma mkstemp_fresh suffix m stems name rest :
  mkstemp suffix m stems = Some (name, rest) -> m !! name = None.
Proof.
  induction stems as [|stem stems IH]; simpl; [discriminate|].
  destruct (m !! (stem +:+ suffix)) eqn:E; [exact IH|].
  intros [= <- <-]. exact E.
Qed.

Lemma mkstemp_name suffix m stems name rest :
  mkstemp suffix m stems = Some (name, rest) ->
  exists stem, In stem stems /\ name = stem +:+ suffix.
Proof.
  induction stems as [|stem stems IH]; simpl; [discriminate|].
  destruct (m !! (stem +:+ suffix)) eqn:E.
  - intros H. destruct (IH H) as (s & Hin & ->). eauto.
  - intros [= <- <-]. eauto.
Qed.

(** ** Runs of the shared shape *)

Section Runs.

Context {A : Type} (suffix : string) (cmd_of : string -> list string)
  (table_of : string -> string) (finish : string -> Pandas.DataFrame -> result A).

Lemma temp_step w output rest :
  mkstemp suffix (fs w) (tmp_stems w) = Some (output, rest) ->
  NamedTemporaryFile suffix w = (Ok output, after_temp w output rest).
Proof. intros H. unfold NamedTemporaryFile. rewrite H. reflexivity. Qed.

Lemma run_step w output rest cmd returncode m :
  Rscript cmd (<[output := Empty]> (fs w)) = (returncode, m) ->
  subprocess_run cmd (after_temp w output rest)
  = (if returncode =? 0 then Ok tt else Raise (CalledProcessError returncode cmd),
     after_run w output rest cmd returncode m).
Proof.
  intros H. unfold subprocess_run. simpl. rewrite H.
  unfold after_run, log, with_fs. simpl. rewrite <- app_assoc. simpl.
  destruct (returncode =? 0); reflexivity.
Qed.

Lemma tool_shape_no_temp w :
  mkstemp suffix (fs w) (tmp_stems w) = None ->
  tool_shape suffix cmd_of table_of finish w
  = (Raise FileExistsError, {| fs := fs w; tmp_stems := []; trace := trace w |}).
Proof.
  intros H. unfold tool_shape, bind, NamedTemporaryFile. rewrite H. reflexivity.
Qed.

Lemma tool_shape_engine_failed w output rest returncode m :
  mkstemp suffix (fs w) (tmp_stems w) = Some (output, rest) ->
  Rscript (cmd_of output) (<[output := Empty]> (fs w)) = (returncode, m) ->
  returncode <> 0 ->
  tool_shape suffix cmd_of table_of finish w
  = (Raise (CalledProcessError returncode (cmd_of output)),
     after_run w output rest (cmd_of output) returncode m).
Proof.
  intros Ht Hr Hc. unfold tool_shape, bind.
  rewrite (temp_step _ _ _ Ht), (run_step _ _ _ _ _ _ Hr).
  destruct (returncode =? 0) eqn:E; [apply Z.eqb_eq in E; contradiction|reflexivity].
Qed.

Lemma tool_shape_unreadable w output rest m :
  mkstemp suffix (fs w) (tmp_stems w) = Some (output, rest) ->
  Rscript (cmd_of output) (<[output := Empty]> (fs w)) = (0, m) ->
  (forall grid df, m !! table_of output = Some (Csv grid) ->
                   Pandas.read_frame grid <> Ok df) ->
  exists e,
    tool_shape suffix cmd_of table_of finish w
    = (Raise e,
       log (EvRead (table_of output)) (after_run w output rest (cmd_of output) 0 m)).
Proof.
  intros Ht Hr Hbad. unfold tool_shape, bind.
  rewrite (temp_step _ _ _ Ht), (run_step _ _ _ _ _ _ Hr). simpl.
  unfold read_csv. simpl.
  destruct (m !! table_of output) as [[| grid | data]|] eqn:E; eauto.
  destruct (Pandas.read_frame grid) as [df|e] eqn:Ef; eauto.
  exfalso. exact (Hbad grid df eq_refl Ef).
Qed.

Lemma tool_shape_read w output rest m grid df :
  mkstemp suffix (fs w) (tmp_stems w) = Some (output, rest) ->
  Rscript (cmd_of output) (<[output := Empty]> (fs w)) = (0, m) ->
  m !! table_of output = Some (Csv grid) ->
  Pandas.read_frame grid = Ok df ->
  tool_shape suffix cmd_of table_of finish w
  = (finish output df,
     after_unlink w output rest (cmd_of output) m (table_of output)).
Proof.
  intros Ht Hr Hm Hf. unfold tool_shape, bind.
  rewrite (temp_step _ _ _ Ht), (run_step _ _ _ _ _ _ Hr). simpl.
  unfold read_csv, unlink, lift. simpl. rewrite Hm, Hf. simpl. rewrite Hm.
  unfold after_unlink, log, with_fs. simpl.
  repeat rewrite <- app_assoc. reflexivity.
Qed.

(** A call that returns went through every step. *)
Lemma tool_shape_returns w a w' :
  tool_shape suffix cmd_of table_of finish w = (Ok a, w') ->
  exists output rest m grid df,
    mkstemp suffix (fs w) (tmp_stems w) = Some (output, rest) /\
    Rscript (cmd_of output) (<[output := Empty]> (fs w)) = (0, m) /\
    m !! table_of output = Some (Csv grid) /\
    Pandas.read_frame grid = Ok df /\
    finish output df = Ok a /\
    w' = after_unlink w output rest (cmd_of output) m (table_of output).
Proof.
  intros H.
  destruct (mkstemp suffix (fs w) (tmp_stems w)) as [[output rest]|] eqn:Ht;
    [|rewrite (tool_shape_no_temp w Ht) in H; discriminate].
  destruct (Rscript (cmd_of output) (<[output := Empty]> (fs w))) as [returncode m] eqn:Hr.
  destruct (Z.eq_dec returncode 0) as [->|Hc];
    [|rewrite (tool_shape_engine_failed w _ _ _ _ Ht Hr Hc) in H; discriminate].
  destruct (m !! table_of output) as [[| grid | data]|] eqn:Hm;
    try (destruct (tool_shape_unreadable w _ _ _ Ht Hr) as [e He];
         [intros ? ? ?; congruence | rewrite He in H; discriminate]).
  destruct (Pandas.read_frame grid) as [df|e] eqn:Hf.
  - rewrite (tool_shape_read w _ _ _ _ _ Ht Hr Hm Hf) in H.
    injection H as H1 H2. exists output, rest, m, grid, df. repeat split; congruence.
  - destruct (tool_shape_unreadable w _ _ _ Ht Hr) as [e' He];
      [intros ? ? ?; congruence | rewrite He in H; discriminate].
Qed.

End Runs.

(** ** Traces *)

Lemma runs_app t1 t2 : runs (t1 ++ t2) = (runs t1 ++ runs t2)%list.
Proof. unfold runs. apply omap_app. Qed.

Lemma reads_app t1 t2 : reads (t1 ++ t2) = (reads t1 ++ reads t2)%list.
Proof. unfold reads. apply omap_app. Qed.

Lemma unlinks_app t1 t2 : unlinks (t1 ++ t2) = (unlinks t1 ++ unlinks t2)%list.
Proof. unfold unlinks. apply omap_app. Qed.

Section RunFacts.

Context {A : Type} (suffix : string) (cmd_of : string -> list string)
  (table_of : string -> string) (finish : string -> Pandas.DataFrame -> result A).

Lemma tool_shape_aborted w output rest returncode m :
  mkstemp suffix (fs w) (tmp_stems w) = Some (output, rest) ->
  Rscript (cmd_of output) (<[output := Empty]> (fs w)) = (returncode, m) ->
  returncode <> 0 ->
  aborted (tool_shape suffix cmd_of table_of finish w) w output (cmd_of output) returncode
  /\ fs (tool_shape suffix cmd_of table_of finish w).2 = m.
Proof.
  intros Ht Hr Hc. rewrite (tool_shape_engine_failed suffix cmd_of table_of finish w _ _ _ _ Ht Hr Hc).
  unfold aborted. simpl. repeat split; try discriminate.
  - rewrite runs_app. simpl. rewrite ?app_nil_r. reflexivity.
  - rewrite reads_app. simpl. rewrite ?app_nil_r. reflexivity.
Qed.

Lemma tool_shape_deleted w output df :
  reads_table Rscript suffix cmd_of table_of w output df ->
  read_then_deleted w (tool_shape suffix cmd_of table_of finish w).2
    output (cmd_of output) (table_of output)
  /\ (tool_shape suffix cmd_of table_of finish w).1 = finish output df.
Proof.
  intros (rest & m & grid & Ht & Hr & Hm & Hf).
  rewrite (tool_shape_read suffix cmd_of table_of finish w _ _ _ _ _ Ht Hr Hm Hf).
  unfold read_then_deleted. simpl. repeat split.
  - rewrite unlinks_app. reflexivity.
  - apply lookup_delete_eq.
Qed.

Lemma tool_shape_returns_reads w a w' :
  tool_shape suffix cmd_of table_of finish w = (Ok a, w') ->
  exists output df,
    reads_table Rscript suffix cmd_of table_of w output df /\
    finish output df = Ok a.
Proof.
  intros H. destruct (tool_shape_returns suffix cmd_of table_of finish w a w' H)
    as (output & rest & m & grid & df & Ht & Hr & Hm & Hf & Hfin & _).
  exists output, df. split; [|exact Hfin]. exists rest, m, grid. auto.
Qed.

(** Whatever happens after the temporary name is allocated, the engine is
    started once, with the tool's argument list. *)
Lemma tool_shape_runs_once w output rest :
  mkstemp suffix (fs w) (tmp_stems w) = Some (output, rest) ->
  exists returncode,
    runs (trace (tool_shape suffix cmd_of table_of finish w).2)
    = (runs (trace w) ++ [(cmd_of output, returncode)])%list.
Proof.
  intros Ht.
  destruct (Rscript (cmd_of output) (<[output := Empty]> (fs w))) as [returncode m] eqn:Hr.
  exists returncode.
  destruct (Z.eq_dec returncode 0) as [->|Hc].
  - destruct (m !! table_of output) as [[| grid | data]|] eqn:Hm;
      try (destruct (tool_shape_unreadable suffix cmd_of table_of finish w _ _ _ Ht Hr) as [e He];
           [intros ? ? ?; congruence
           | rewrite He; simpl; rewrite !runs_app; simpl; rewrite ?app_nil_r; reflexivity]).
    destruct (Pandas.read_frame grid) as [df|e] eqn:Hf.
    + rewrite (tool_shape_read suffix cmd_of table_of finish w _ _ _ _ _ Ht Hr Hm Hf). simpl.
      rewrite runs_app. reflexivity.
    + destruct (tool_shape_unreadable suffix cmd_of table_of finish w _ _ _ Ht Hr) as [e' He];
        [intros ? ? ?; congruence
        | rewrite He; simpl; rewrite !runs_app; simpl; rewrite ?app_nil_r; reflexivity].
  - rewrite (tool_shape_engine_failed suffix cmd_of table_of finish w _ _ _ _ Ht Hr Hc). simpl.
    rewrite runs_app. reflexivity.
Qed.

End RunFacts.

(** ** The tools as instances of the shape *)

Lemma create_spark_object_shape counts_csv location_csv percentage min_total_counts seed :
  create_spark_object counts_csv location_csv percentage min_total_counts seed
  = tool_shape ".rds"
      (create_spark_object_cmd counts_csv location_csv percentage min_total_counts seed)
      summary_path create_spark_object_return.
Proof. reflexivity. Qed.

Lemma spark_vc_shape spark_object_rds covariates_csv num_core verbose seed :
  spark_vc spark_object_rds covariates_csv num_core verbose seed
  = tool_shape ".rds"
      (spark_vc_cmd spark_object_rds covariates_csv num_core verbose seed)
      summary_path spark_vc_return.
Proof. reflexivity. Qed.

Lemma spark_test_shape fitted_spark_object_rds check_positive verbose seed :
  spark_test fitted_spark_object_rds check_positive verbose seed
  = tool_shape ".csv"
      (spark_test_cmd fitted_spark_object_rds check_positive verbose seed)
      (fun output_csv => output_csv)
      (fun output_csv => spark_test_return (Py.replace output_csv ".csv" ".rds")).
Proof. reflexivity. Qed.

(** ** The covariates argument of the Model Fitter *)

(** C3.  With [covariates_csv] absent the argument list of [spark_vc] is the
    ten fixed arguments and nothing else: its flags are [--spark_object],
    [--num_core], [--verbose], [--seed] and [--output], so there is neither a
    [--covariates] flag nor a placeholder.  With a covariate file path (a
    non-empty string) the list is the same ten arguments followed by
    [--covariates] and the path.  The two lists differ. *)
Theorem spark_vc_covariates_argument
    spark_object_rds num_core verbose seed output_rds path :
  path <> "" ->
  let absent := spark_vc_cmd spark_object_rds None num_core verbose seed output_rds in
  let supplied := spark_vc_cmd spark_object_rds (Some path) num_core verbose seed output_rds in
  absent = [ "Rscript"; script "spark_vc.R";
             "--spark_object"; spark_object_rds;
             "--num_core"; Py.str_int num_core;
             "--verbose"; Py.upper (Py.str_bool verbose);
             "--seed"; Py.str_int seed;
             "--output"; output_rds ] /\
  flags_of absent = ["--spark_object"; "--num_core"; "--verbose"; "--seed"; "--output"] /\
  ~ In "--covariates" (flags_of absent) /\
  supplied = (absent ++ ["--covariates"; path])%list /\
  flags_of supplied
    = ["--spark_object"; "--num_core"; "--verbose"; "--seed"; "--output"; "--covariates"] /\
  supplied <> absent.
Proof.
  intros Hpath absent supplied.
  assert (Hs : supplied = (absent ++ ["--covariates"; path])%list).
  { unfold supplied, absent, spark_vc_cmd, Py.truthy.
    destruct (String.eqb_spec path ""); [contradiction|reflexivity]. }
  repeat split.
  - intros Hin. simpl in Hin.
    repeat (destruct Hin as [Hin|Hin]; [discriminate Hin|]). exact Hin.
  - exact Hs.
  - rewrite Hs. reflexivity.
  - rewrite Hs. intros Heq. apply (f_equal (@length string)) in Heq.
    rewrite length_app in Heq. simpl in Heq. lia.
Qed.

(** C9.  An empty string for [covariates_csv] is treated like [None]: the test
    is the truthiness of the value, so the argument list has no
    [--covariates], and the whole call behaves as the call without
    covariates. *)
Theorem spark_vc_empty_covariates_like_none
    spark_object_rds num_core verbose seed :
  (forall output_rds,
     spark_vc_cmd spark_object_rds (Some "") num_core verbose seed output_rds
     = spark_vc_cmd spark_object_rds None num_core verbose seed output_rds) /\
  (forall w,
     spark_vc spark_object_rds (Some "") num_core verbose seed w
     = spark_vc spark_object_rds None num_core verbose seed w) /\
  Py.truthy (Some "") = Py.truthy None.
Proof. repeat split. Qed.


(** ** Failure of the engine *)

(** C4.  In each of the three tools, when the engine exits with a non-zero
    status the call raises (the exception carries the status and the
    argument list), no dictionary is returned, the engine was started exactly
    once and no file was read: the trace of the call is the allocation of the
    temporary file followed by that single run. *)
Theorem nonzero_exit_fails_call w output rest returncode m :
  returncode <> 0 ->
  (forall counts_csv location_csv percentage min_total_counts seed,
     let cmd := create_spark_object_cmd counts_csv location_csv percentage
                  min_total_counts seed output in
     mkstemp ".rds" (fs w) (tmp_stems w) = Some (output, rest) ->
     Rscript cmd (<[output := Empty]> (fs w)) = (returncode, m) ->
     aborted (create_spark_object counts_csv location_csv percentage
                min_total_counts seed w) w output cmd returncode) /\
  (forall spark_object_rds covariates_csv num_core verbose seed,
     let cmd := spark_vc_cmd spark_object_rds covariates_csv num_core verbose seed output in
     mkstemp ".rds" (fs w) (tmp_stems w) = Some (output, rest) ->
     Rscript cmd (<[output := Empty]> (fs w)) = (returncode, m) ->
     aborted (spark_vc spark_object_rds covariates_csv num_core verbose seed w)
       w output cmd returncode) /\
  (forall fitted_spark_object_rds check_positive verbose seed,
     let cmd := spark_test_cmd fitted_spark_object_rds check_positive verbose seed output in
     mkstemp ".csv" (fs w) (tmp_stems w) = Some (output, rest) ->
     Rscript cmd (<[output := Empty]> (fs w)) = (returncode, m) ->
     aborted (spark_test fitted_spark_object_rds check_positive verbose seed w)
       w output cmd returncode).
Proof.
  intros Hc. split; [|split]; intros.
  - rewrite create_spark_object_shape.
    eapply tool_shape_aborted; eassumption.
  - rewrite spark_vc_shape.
    eapply tool_shape_aborted; eassumption.
  - rewrite spark_test_shape.
    eapply (tool_shape_aborted ".csv"
              (spark_test_cmd fitted_spark_object_rds check_positive verbose seed)
              (fun o => o)); eassumption.
Qed.

(** ** Deletion of the table file *)

(** C5, as the code has it.  In each tool, a call in which the engine exits
    with status zero and the table file is read successfully, and so every
    call that returns normally, deletes that file exactly once, after
    reading it, and the file is absent from the filesystem afterwards. *)
Theorem table_file_read_then_deleted w output df :
  (forall counts_csv location_csv percentage min_total_counts seed,
     let cmd_of := create_spark_object_cmd counts_csv location_csv percentage
                     min_total_counts seed in
     let run := create_spark_object counts_csv location_csv percentage
                  min_total_counts seed in
     (reads_table Rscript ".rds" cmd_of summary_path w output df ->
      read_then_deleted w (run w).2 output (cmd_of output) (summary_path output)) /\
     (forall d w', run w = (Ok d, w') ->
        exists output' df', reads_table Rscript ".rds" cmd_of summary_path w output' df' /\
          read_then_deleted w w' output' (cmd_of output') (summary_path output'))) /\
  (forall spark_object_rds covariates_csv num_core verbose seed,
     let cmd_of := spark_vc_cmd spark_object_rds covariates_csv num_core verbose seed in
     let run := spark_vc spark_object_rds covariates_csv num_core verbose seed in
     (reads_table Rscript ".rds" cmd_of summary_path w output df ->
      read_then_deleted w (run w).2 output (cmd_of output) (summary_path output)) /\
     (forall d w', run w = (Ok d, w') ->
        exists output' df', reads_table Rscript ".rds" cmd_of summary_path w output' df' /\
          read_then_deleted w w' output' (cmd_of output') (summary_path output'))) /\
  (forall fitted_spark_object_rds check_positive verbose seed,
     let cmd_of := spark_test_cmd fitted_spark_object_rds check_positive verbose seed in
     let run := spark_test fitted_spark_object_rds check_positive verbose seed in
     (reads_table Rscript ".csv" cmd_of (fun output_csv => output_csv) w output df ->
      read_then_deleted w (run w).2 output (cmd_of output) output) /\
     (forall d w', run w = (Ok d, w') ->
        exists output' df',
          reads_table Rscript ".csv" cmd_of (fun output_csv => output_csv) w output' df' /\
          read_then_deleted w w' output' (cmd_of output') output')).
Proof.
  assert (Hgen : forall A suffix cmd_of table_of
                   (finish : string -> Pandas.DataFrame -> result A),
    (reads_table Rscript suffix cmd_of table_of w output df ->
     read_then_deleted w (tool_shape suffix cmd_of table_of finish w).2
       output (cmd_of output) (table_of output)) /\
    (forall d w', tool_shape suffix cmd_of table_of finish w = (Ok d, w') ->
       exists output' df', reads_table Rscript suffix cmd_of table_of w output' df' /\
         read_then_deleted w w' output' (cmd_of output') (table_of output'))).
  { intros A suffix cmd_of table_of finish. split.
    - intros H. apply (tool_shape_deleted suffix cmd_of table_of finish w output df H).
    - intros d w' H.
      destruct (tool_shape_returns_reads suffix cmd_of table_of finish w d w' H)
        as (output' & df' & Hreads & _).
      exists output', df'. split; [exact Hreads|].
      pose proof (tool_shape_deleted suffix cmd_of table_of finish w output' df' Hreads)
        as [Hdel _].
      rewrite H in Hdel. exact Hdel. }
  repeat apply conj; intros.
  - apply (Hgen _ ".rds" cmd_of summary_path create_spark_object_return).
  - apply (Hgen _ ".rds" cmd_of summary_path spark_vc_return).
  - apply (Hgen _ ".csv" cmd_of (fun o => o)
             (fun o => spark_test_return (Py.replace o ".csv" ".rds"))).
Qed.

(** ** The Object Builder *)

(** C8.  Once its temporary name is allocated, [create_spark_object] starts
    the engine once, with the script followed by [--counts], [--location],
    [--percentage], [--min_total_counts], [--seed] and [--output] in that
    order, each followed by the string rendering of its parameter; and when
    the call returns, [n_genes], [n_spots] and [total_counts] are the [int]
    of the first-row values of the columns of those names in the summary
    table, and [spark_object_path] is the output path. *)
Theorem create_spark_object_contract
    counts_csv location_csv percentage min_total_counts seed w output rest :
  mkstemp ".rds" (fs w) (tmp_stems w) = Some (output, rest) ->
  let run := create_spark_object counts_csv location_csv percentage
               min_total_counts seed w in
  let cmd := [ "Rscript"; R_SCRIPT_DIR +:+ "/" +:+ "create_spark_object.R";
               "--counts"; counts_csv;
               "--location"; location_csv;
               "--percentage"; str_float percentage;
               "--min_total_counts"; Py.str_int min_total_counts;
               "--seed"; Py.str_int seed;
               "--output"; output ] in
  (exists returncode, runs (trace run.2) = (runs (trace w) ++ [(cmd, returncode)])%list) /\
  (forall d, run.1 = Ok d ->
     exists df g s t,
       reads_table Rscript ".rds"
         (create_spark_object_cmd counts_csv location_csv percentage
            min_total_counts seed) summary_path w output df /\
       first_row_value df "n_genes" g /\
       PyInt.int g = Ok (CreateSparkObject.n_genes d) /\
       first_row_value df "n_spots" s /\
       PyInt.int s = Ok (CreateSparkObject.n_spots d) /\
       first_row_value df "total_counts" t /\
       PyInt.int t = Ok (CreateSparkObject.total_counts d) /\
       CreateSparkObject.spark_object_path d = output).
Proof.
  intros Ht run cmd. split.
  - apply (tool_shape_runs_once ".rds"
             (create_spark_object_cmd counts_csv location_csv percentage
                min_total_counts seed) summary_path create_spark_object_return
             w output rest Ht).
  - intros d Hd.
    destruct run as [r w'] eqn:Hrun. simpl in Hd. subst r.
    unfold run in Hrun. rewrite create_spark_object_shape in Hrun.
    destruct (tool_shape_returns_reads _ _ _ _ _ _ _ Hrun)
      as (output' & df & Hreads & Hfin).
    assert (output' = output) as ->.
    { destruct Hreads as (rest' & ? & ? & Ht' & _). congruence. }
    unfold create_spark_object_return, first_of in Hfin.
    destruct (Pandas.col df "n_genes") as [cg|] eqn:Hcg; [|discriminate].
    simpl in Hfin. unfold Pandas.at0 in Hfin.
    destruct (Pandas.cells cg !! 0%nat) as [g|] eqn:Hg; [|discriminate].
    simpl in Hfin.
    destruct (Pandas.col df "n_spots") as [cs|] eqn:Hcs; [|discriminate].
    simpl in Hfin.
    destruct (Pandas.cells cs !! 0%nat) as [s|] eqn:Hs; [|discriminate].
    simpl in Hfin.
    destruct (PyInt.int g) as [zg|] eqn:Hzg; [|discriminate].
    simpl in Hfin.
    destruct (PyInt.int s) as [zs|] eqn:Hzs; [|discriminate].
    simpl in Hfin.
    destruct (Pandas.col df "total_counts") as [ct|] eqn:Hct; [|discriminate].
    simpl in Hfin.
    destruct (Pandas.cells ct !! 0%nat) as [t|] eqn:Htc; [|discriminate].
    simpl in Hfin.
    destruct (PyInt.int t) as [zt|] eqn:Hzt; [|discriminate].
    simpl in Hfin. injection Hfin as <-. simpl.
    exists df, g, s, t. unfold first_row_value. repeat split; eauto.
Qed.

(** ** The Hypothesis Tester *)

Lemma spark_test_returns fitted_spark_object_rds check_positive verbose seed w d w' :
  spark_test fitted_spark_object_rds check_positive verbose seed w = (Ok d, w') ->
  exists output results_df,
    reads_table Rscript ".csv"
      (spark_test_cmd fitted_spark_object_rds check_positive verbose seed)
      (fun output_csv => output_csv) w output results_df /\
    spark_test_return (Py.replace output ".csv" ".rds") results_df = Ok d.
Proof.
  rewrite spark_test_shape. intros H.
  destruct (tool_shape_returns_reads _ _ _ _ _ _ _ H) as (output & df & Hr & Hf).
  exists output, df. split; assumption.
Qed.

Lemma reads_table_well_formed suffix cmd_of table_of w output df :
  reads_table Rscript suffix cmd_of table_of w output df ->
  Pandas.well_formed df = true.
Proof.
  intros (rest & m & grid & _ & _ & _ & Hf). exact (read_frame_well_formed grid df Hf).
Qed.

(** C1.  When [spark_test] returns, [n_significant_genes] is the number of
    rows of the table it read whose [adjusted_pvalue] is strictly below 0.05
    (as exact values: 20 times the value is below 1).  The count ranges over
    the whole column, one entry per row of the table, whereas the preview
    holds at most ten rows. *)
Theorem significant_count_over_full_table
    fitted_spark_object_rds check_positive verbose seed w d w' :
  spark_test fitted_spark_object_rds check_positive verbose seed w = (Ok d, w') ->
  exists output results_df adjusted,
    reads_table Rscript ".csv"
      (spark_test_cmd fitted_spark_object_rds check_positive verbose seed)
      (fun output_csv => output_csv) w output results_df /\
    Pandas.col results_df "adjusted_pvalue" = Ok adjusted /\
    length (Pandas.cells adjusted) = Pandas.nrows results_df /\
    SparkTest.n_significant_genes d
      = Z.of_nat (length (List.filter below_0_05 (Pandas.cells adjusted))) /\
    (length (SparkTest.results_preview d) <= 10)%nat.
Proof.
  intros H. destruct (spark_test_returns _ _ _ _ _ _ _ H) as (output & df & Hr & Hf).
  pose proof (reads_table_well_formed _ _ _ _ _ _ Hr) as Hwf.
  destruct (spark_test_return_inv _ _ _ Hwf Hf)
    as (gene & combined & adjusted & mask & order
        & Hg & Hc & Ha & Hm & Ho & _ & _ & Hn & Hp).
  destruct (well_formed_col df _ _ Hwf Ha) as [Hsize Hvalid].
  exists output, df, adjusted. repeat split; try assumption.
  - rewrite Hn, (lt_0_05_mask adjusted mask Hvalid Hm). apply sum_count.
  - rewrite <- (Forall2_length _ _ _ Hp). rewrite length_take. lia.
Qed.

(** C2.  When [spark_test] returns, [results_preview] has one record per
    selected row, in ascending order of [adjusted_pvalue]; the selected rows
    are ten rows of the table (all of them when the table has fewer) whose
    [adjusted_pvalue] is smallest, a missing value counting as largest; each
    record is exactly [gene], [combined_pvalue] and [adjusted_pvalue] of its
    row, so no other row and no other field is in the returned structure. *)
Theorem preview_is_ten_smallest
    fitted_spark_object_rds check_positive verbose seed w d w' :
  spark_test fitted_spark_object_rds check_positive verbose seed w = (Ok d, w') ->
  exists output results_df gene combined adjusted idx,
    reads_table Rscript ".csv"
      (spark_test_cmd fitted_spark_object_rds check_positive verbose seed)
      (fun output_csv => output_csv) w output results_df /\
    Pandas.col results_df "gene" = Ok gene /\
    Pandas.col results_df "combined_pvalue" = Ok combined /\
    Pandas.col results_df "adjusted_pvalue" = Ok adjusted /\
    Pandas.size adjusted = Pandas.nrows results_df /\
    smallest_rows 10 adjusted idx /\
    Forall2 (preview_record gene combined adjusted) idx (SparkTest.results_preview d) /\
    ((10 <= Pandas.nrows results_df)%nat ->
     length (SparkTest.results_preview d) = 10%nat).
Proof.
  intros H. destruct (spark_test_returns _ _ _ _ _ _ _ H) as (output & df & Hr & Hf).
  pose proof (reads_table_well_formed _ _ _ _ _ _ Hr) as Hwf.
  destruct (spark_test_return_inv _ _ _ Hwf Hf)
    as (gene & combined & adjusted & mask & order
        & Hg & Hc & Ha & Hm & Ho & _ & _ & _ & Hp).
  destruct (well_formed_col df _ _ Hwf Ha) as [Hsize _].
  pose proof (order_of_smallest 10 adjusted order Ho) as Hs.
  exists output, df, gene, combined, adjusted, (firstn 10 order).
  repeat (split; [assumption|]).
  intros Hten. rewrite <- (Forall2_length _ _ _ Hp).
  destruct Hs as (_ & Hlen & _). rewrite Hlen, Hsize. lia.
Qed.

(** C10, as the code has it.  When [spark_test] returns, the table it read
    has at least one row, [n_genes_tested] is its number of rows and
    [results_preview] has exactly [min 10 rows] records, so all the rows when
    there are fewer than ten. *)
Theorem tested_count_and_preview_length
    fitted_spark_object_rds check_positive verbose seed w d w' :
  spark_test fitted_spark_object_rds check_positive verbose seed w = (Ok d, w') ->
  exists output results_df,
    reads_table Rscript ".csv"
      (spark_test_cmd fitted_spark_object_rds check_positive verbose seed)
      (fun output_csv => output_csv) w output results_df /\
    (0 < Pandas.nrows results_df)%nat /\
    SparkTest.n_genes_tested d = Z.of_nat (Pandas.nrows results_df) /\
    length (SparkTest.results_preview d) = Nat.min 10 (Pandas.nrows results_df) /\
    ((Pandas.nrows results_df < 10)%nat ->
     length (SparkTest.results_preview d) = Pandas.nrows results_df).
Proof.
  intros H. destruct (spark_test_returns _ _ _ _ _ _ _ H) as (output & df & Hr & Hf).
  pose proof (reads_table_well_formed _ _ _ _ _ _ Hr) as Hwf.
  destruct (spark_test_return_inv _ _ _ Hwf Hf)
    as (gene & combined & adjusted & mask & order
        & Hg & Hc & Ha & Hm & Ho & _ & Hn & _ & Hp).
  destruct (well_formed_col df _ _ Hwf Ha) as [Hsize _].
  destruct (order_of_smallest 10 adjusted order Ho) as (_ & Hlen & _).
  assert (Hrows : (0 < Pandas.nrows df)%nat).
  { destruct (Pandas.nrows df) eqn:Hz; [|lia]. exfalso.
    destruct Hr as (rest & m & grid & _ & _ & _ & Hread).
    rewrite (read_frame_no_rows grid df _ adjusted Hread Hz Ha) in Ho.
    discriminate. }
  exists output, df. split; [exact Hr|]. split; [exact Hrows|].
  split; [exact Hn|].
  assert (Hl : length (SparkTest.results_preview d) = Nat.min 10 (Pandas.nrows df)).
  { rewrite <- (Forall2_length _ _ _ Hp). rewrite Hlen, Hsize. reflexivity. }
  split; [exact Hl|]. intros Hfew. rewrite Hl. lia.
Qed.

(** ** Derived paths *)

Lemma rbind_ok {A B} (r : result A) (k : A -> result B) b :
  rbind r k = Ok b -> exists a, r = Ok a /\ k a = Ok b.
Proof. destruct r as [a|e]; simpl; [eauto|discriminate]. Qed.

Ltac invert_rbind H :=
  repeat match type of H with
         | rbind _ _ = Ok _ =>
             let a := fresh "a" in
             let Ha := fresh "Ha" in
             apply rbind_ok in H; destruct H as (a & Ha & H)
         end.

Lemma create_spark_object_return_path output_rds summary_df d :
  create_spark_object_return output_rds summary_df = Ok d ->
  CreateSparkObject.spark_object_path d = output_rds.
Proof.
  unfold create_spark_object_return. intros H. invert_rbind H.
  injection H as <-. reflexivity.
Qed.

Lemma spark_vc_return_path output_rds summary_df d :
  spark_vc_return output_rds summary_df = Ok d ->
  SparkVc.fitted_spark_object_path d = output_rds.
Proof.
  unfold spark_vc_return. intros H. invert_rbind H.
  injection H as <-. reflexivity.
Qed.



(** ** Further properties of the shared shape *)

Section ShapeExtras.

Context {A : Type} (suffix : string) (cmd_of : string -> list string)
  (table_of : string -> string) (finish : string -> Pandas.DataFrame -> result A).

Lemma tool_shape_missing w output rest m :
  mkstemp suffix (fs w) (tmp_stems w) = Some (output, rest) ->
  Rscript (cmd_of output) (<[output := Empty]> (fs w)) = (0, m) ->
  m !! table_of output = None ->
  tool_shape suffix cmd_of table_of finish w
  = (Raise (FileNotFoundError (table_of output)),
     log (EvRead (table_of output)) (after_run w output rest (cmd_of output) 0 m)).
Proof.
  intros Ht Hr Hm. unfold tool_shape, bind.
  rewrite (temp_step _ _ _ _ Ht), (run_step _ _ _ _ _ _ Hr). simpl.
  unfold read_csv. simpl. rewrite Hm. reflexivity.
Qed.

(** Every outcome of a call, once the temporary name is allocated. *)
Lemma tool_shape_outcomes w output rest returncode m :
  mkstemp suffix (fs w) (tmp_stems w) = Some (output, rest) ->
  Rscript (cmd_of output) (<[output := Empty]> (fs w)) = (returncode, m) ->
  let run := tool_shape suffix cmd_of table_of finish w in
  (returncode <> 0 /\
   run = (Raise (CalledProcessError returncode (cmd_of output)),
          after_run w output rest (cmd_of output) returncode m)) \/
  (returncode = 0 /\ exists e,
   run = (Raise e, log (EvRead (table_of output))
                     (after_run w output rest (cmd_of output) 0 m))) \/
  (returncode = 0 /\ exists df,
   run = (finish output df,
          after_unlink w output rest (cmd_of output) m (table_of output))).
Proof.
  intros Ht Hr run. unfold run.
  destruct (Z.eq_dec returncode 0) as [->|Hc].
  - right.
    destruct (m !! table_of output) as [[| grid | data]|] eqn:Hm;
      try (left; split; [reflexivity|];
           apply (tool_shape_unreadable suffix cmd_of table_of finish w _ _ _ Ht Hr);
           intros ? ? ?; congruence).
    destruct (Pandas.read_frame grid) as [df|e] eqn:Hf.
    + right. split; [reflexivity|]. exists df.
      apply (tool_shape_read suffix cmd_of table_of finish w _ _ _ _ _ Ht Hr Hm Hf).
    + left. split; [reflexivity|].
      apply (tool_shape_unreadable suffix cmd_of table_of finish w _ _ _ Ht Hr).
      intros ? ? ?; congruence.
  - left. split; [exact Hc|].
    apply (tool_shape_engine_failed suffix cmd_of table_of finish w _ _ _ _ Ht Hr Hc).
Qed.

Lemma tool_shape_single_pass w :
  exists tail,
    trace (tool_shape suffix cmd_of table_of finish w).2 = (trace w ++ tail)%list /\
    single_pass tail.
Proof.
  destruct (mkstemp suffix (fs w) (tmp_stems w)) as [[output rest]|] eqn:Ht.
  - destruct (Rscript (cmd_of output) (<[output := Empty]> (fs w)))
      as [returncode m] eqn:Hr.
    destruct (tool_shape_outcomes w output rest returncode m Ht Hr)
      as [[_ ->]|[[_ [e ->]]|[_ [df ->]]]]; simpl.
    + eexists. split; [reflexivity|]. unfold single_pass. simpl. auto.
    + exists [EvTemp output; EvRun (cmd_of output) 0; EvRead (table_of output)].
      split; [rewrite <- app_assoc; reflexivity|]. unfold single_pass. simpl. auto.
    + eexists. split; [reflexivity|]. unfold single_pass. simpl. auto.
  - rewrite (tool_shape_no_temp suffix cmd_of table_of finish w Ht). simpl.
    exists []. split; [rewrite app_nil_r; reflexivity|].
    unfold single_pass. simpl. auto.
Qed.

Lemma tool_shape_footprint w output rest returncode m p :
  mkstemp suffix (fs w) (tmp_stems w) = Some (output, rest) ->
  Rscript (cmd_of output) (<[output := Empty]> (fs w)) = (returncode, m) ->
  p <> table_of output ->
  fs (tool_shape suffix cmd_of table_of finish w).2 !! p = m !! p.
Proof.
  intros Ht Hr Hp.
  destruct (tool_shape_outcomes w output rest returncode m Ht Hr)
    as [[_ ->]|[[_ [e ->]]|[_ [df ->]]]]; simpl; try reflexivity.
  apply lookup_delete_ne. congruence.
Qed.

(** The temporary name did not exist, and a second call made while the file
    at the first name is still there gets another name. *)
Lemma tool_shape_fresh w a w' :
  tool_shape suffix cmd_of table_of finish w = (Ok a, w') ->
  exists output,
    (exists df, reads_table Rscript suffix cmd_of table_of w output df /\
                finish output df = Ok a) /\
    fs w !! output = None.
Proof.
  intros H.
  destruct (tool_shape_returns suffix cmd_of table_of finish w a w' H)
    as (output & rest & m & grid & df & Ht & Hr & Hm & Hf & Hfin & _).
  exists output. split.
  - exists df. split; [|exact Hfin]. exists rest, m, grid. auto.
  - exact (mkstemp_fresh _ _ _ _ _ Ht).
Qed.

End ShapeExtras.

Lemma replace_scan_changes_head c1 c2 c3 c4 d rest fuel s :
  d <> c1 ->
  Py.contains (four c1 c2 c3 c4) s = true -> (String.length s <= fuel)%nat ->
  Py.replace_scan fuel (four c1 c2 c3 c4) (String d rest) s <> s.
Proof.
  intros Hd. revert s. induction fuel as [|fuel IH]; intros s Hc Hf.
  - destruct s; [|simpl in Hf; lia]. unfold four in Hc. discriminate Hc.
  - destruct s as [|a s]; [unfold four in Hc; discriminate Hc|].
    rewrite replace_scan_step.
    destruct (String.prefix (four c1 c2 c3 c4) (String a s)) eqn:Hp.
    + unfold four in Hp. rewrite prefix_cons in Hp.
      destruct (ascii_dec c1 a) as [<-|]; [|discriminate].
      rewrite string_app_cons. intros Heq. injection Heq as Heq _. contradiction.
    + rewrite contains_cons, Hp in Hc. simpl in Hc.
      intros Heq. injection Heq as Heq. revert Heq. apply IH; [exact Hc|].
      simpl in Hf. lia.
Qed.

Lemma summary_path_differs stem : summary_path (stem +:+ ".rds") <> stem +:+ ".rds".
Proof.
  unfold summary_path, Py.replace.
  apply (replace_scan_changes_head "." "r" "d" "s" "_" "summary.csv");
    [discriminate| |lia].
  apply (contains_suffix "." "r" "d" "s").
Qed.

Lemma spark_vc_cmd_explicit spark_object_rds covariates_csv num_core verbose seed output :
  spark_vc_cmd spark_object_rds covariates_csv num_core verbose seed output
  = ([ "Rscript"; R_SCRIPT_DIR +:+ "/" +:+ "spark_vc.R";
       "--spark_object"; spark_object_rds;
       "--num_core"; Py.str_int num_core;
       "--verbose"; logical verbose;
       "--seed"; Py.str_int seed;
       "--output"; output ] ++ covariates_args covariates_csv)%list.
Proof.
  unfold spark_vc_cmd, covariates_args, Py.truthy.
  destruct covariates_csv as [p|]; [destruct (String.eqb p "")|];
    destruct verbose; reflexivity.
Qed.

Lemma spark_test_cmd_explicit fitted_spark_object_rds check_positive verbose seed output :
  spark_test_cmd fitted_spark_object_rds check_positive verbose seed output
  = [ "Rscript"; R_SCRIPT_DIR +:+ "/" +:+ "spark_test.R";
      "--spark_object"; fitted_spark_object_rds;
      "--check_positive"; logical check_positive;
      "--verbose"; logical verbose;
      "--seed"; Py.str_int seed;
      "--output"; output ].
Proof. destruct check_positive, verbose; reflexivity. Qed.

(** ** The Model Fitter *)

(** X1.  Once its temporary name is allocated, [spark_vc] starts the engine
    once, with [spark_vc.R] followed by [--spark_object], [--num_core],
    [--verbose] (as [TRUE] or [FALSE]), [--seed] and [--output], then the
    covariates when a non-empty path is given; and when the call returns,
    [n_genes_fitted] is the [int] and [status] the [str] of the first-row
    values of those columns of the summary, the message quotes the first-row
    value of [n_genes_fitted], and [fitted_spark_object_path] is the output
    path. *)
Theorem spark_vc_contract
    spark_object_rds covariates_csv num_core verbose seed w output rest :
  mkstemp ".rds" (fs w) (tmp_stems w) = Some (output, rest) ->
  let run := spark_vc spark_object_rds covariates_csv num_core verbose seed w in
  let cmd := ([ "Rscript"; R_SCRIPT_DIR +:+ "/" +:+ "spark_vc.R";
                "--spark_object"; spark_object_rds;
                "--num_core"; Py.str_int num_core;
                "--verbose"; logical verbose;
                "--seed"; Py.str_int seed;
                "--output"; output ] ++ covariates_args covariates_csv)%list in
  (exists returncode, runs (trace run.2) = (runs (trace w) ++ [(cmd, returncode)])%list) /\
  (forall d, run.1 = Ok d ->
     exists df g s,
       reads_table Rscript ".rds"
         (spark_vc_cmd spark_object_rds covariates_csv num_core verbose seed)
         summary_path w output df /\
       first_row_value df "n_genes_fitted" g /\
       PyInt.int g = Ok (SparkVc.n_genes_fitted d) /\
       first_row_value df "status" s /\
       SparkVc.status d = str_scalar s /\
       SparkVc.message d = "Model parameters estimated for " +:+ str_scalar g +:+ " genes" /\
       SparkVc.fitted_spark_object_path d = output).
Proof.
  intros Ht run cmd. split.
  - unfold cmd. rewrite <- spark_vc_cmd_explicit.
    apply (tool_shape_runs_once ".rds"
             (spark_vc_cmd spark_object_rds covariates_csv num_core verbose seed)
             summary_path spark_vc_return w output rest Ht).
  - intros d Hd.
    destruct run as [r w'] eqn:Hrun. simpl in Hd. subst r.
    unfold run in Hrun. rewrite spark_vc_shape in Hrun.
    destruct (tool_shape_returns_reads _ _ _ _ _ _ _ Hrun)
      as (output' & df & Hreads & Hfin).
    assert (output' = output) as ->.
    { destruct Hreads as (rest' & ? & ? & Ht' & _). congruence. }
    unfold spark_vc_return, first_of in Hfin.
    destruct (Pandas.col df "n_genes_fitted") as [cg|] eqn:Hcg; [|discriminate].
    simpl in Hfin. unfold Pandas.at0 in Hfin.
    destruct (Pandas.cells cg !! 0%nat) as [g|] eqn:Hg; [|discriminate].
    simpl in Hfin.
    destruct (PyInt.int g) as [zg|] eqn:Hzg; [|discriminate].
    simpl in Hfin.
    destruct (Pandas.col df "status") as [cs|] eqn:Hcs; [|discriminate].
    simpl in Hfin.
    destruct (Pandas.cells cs !! 0%nat) as [s|] eqn:Hs; [|discriminate].
    simpl in Hfin. injection Hfin as <-. simpl.
    exists df, g, s. unfold first_row_value. repeat split; eauto.
Qed.

(** ** The Hypothesis Tester, continued *)

(** X2.  Once its temporary name is allocated, [spark_test] starts the
    engine once, with [spark_test.R] followed by [--spark_object],
    [--check_positive] and [--verbose] (each as [TRUE] or [FALSE]), [--seed]
    and [--output] with the temporary [.csv] path, whatever happens next. *)
Theorem spark_test_invocation
    fitted_spark_object_rds check_positive verbose seed w output rest :
  mkstemp ".csv" (fs w) (tmp_stems w) = Some (output, rest) ->
  exists returncode,
    runs (trace (spark_test fitted_spark_object_rds check_positive verbose seed w).2)
    = (runs (trace w)
         ++ [([ "Rscript"; R_SCRIPT_DIR +:+ "/" +:+ "spark_test.R";
                "--spark_object"; fitted_spark_object_rds;
                "--check_positive"; logical check_positive;
                "--verbose"; logical verbose;
                "--seed"; Py.str_int seed;
                "--output"; output ], returncode)])%list.
Proof.
  intros Ht. rewrite <- spark_test_cmd_explicit. rewrite spark_test_shape.
  apply (tool_shape_runs_once ".csv"
           (spark_test_cmd fitted_spark_object_rds check_positive verbose seed)
           (fun o => o) _ w output rest Ht).
Qed.

Lemma filter_length_le {B} (f : B -> bool) (l : list B) :
  (length (List.filter f l) <= length l)%nat.
Proof.
  induction l as [|x l IH]; simpl; [lia|]. destruct (f x); simpl; lia.
Qed.

(** X3.  When [spark_test] returns, the significant count lies between 0 and
    [n_genes_tested], and the message reports that same count in decimal. *)
Theorem spark_test_counts_consistent
    fitted_spark_object_rds check_positive verbose seed w d w' :
  spark_test fitted_spark_object_rds check_positive verbose seed w = (Ok d, w') ->
  0 <= SparkTest.n_significant_genes d <= SparkTest.n_genes_tested d /\
  1 <= SparkTest.n_genes_tested d /\
  SparkTest.message d
  = "Spatial pattern testing completed. Found "
      +:+ Py.str_int (SparkTest.n_significant_genes d)
      +:+ " significant genes (FDR < 0.05)." /\
  SparkTest.reference d = reference_url.
Proof.
  intros H. destruct (spark_test_returns _ _ _ _ _ _ _ H) as (output & df & Hr & Hf).
  pose proof (reads_table_well_formed _ _ _ _ _ _ Hr) as Hwf.
  destruct (spark_test_return_inv _ _ _ Hwf Hf)
    as (gene & combined & adjusted & mask & order
        & Hg & Hc & Ha & Hm & Ho & _ & Hn & Hsig & Hp).
  destruct (well_formed_col df _ _ Hwf Ha) as [Hsize Hvalid].
  assert (Hrows : (0 < Pandas.nrows df)%nat).
  { destruct (Pandas.nrows df) eqn:Hz; [|lia]. exfalso.
    destruct Hr as (rest & m & grid & _ & _ & _ & Hread).
    rewrite (read_frame_no_rows grid df _ adjusted Hread Hz Ha) in Ho.
    discriminate. }
  assert (Hcount : SparkTest.n_significant_genes d
                   = Z.of_nat (length (List.filter below_0_05 (Pandas.cells adjusted)))).
  { rewrite Hsig, (lt_0_05_mask adjusted mask Hvalid Hm). apply sum_count. }
  pose proof (filter_length_le below_0_05 (Pandas.cells adjusted)) as Hle.
  unfold Pandas.size in Hsize. unfold Pandas.len in Hn.
  repeat split; try lia.
  - unfold spark_test_return in Hf. rewrite Ha in Hf. simpl in Hf.
    rewrite Hm in Hf. simpl in Hf.
    destruct (Pandas.nsmallest 10 "adjusted_pvalue" df); [|discriminate]. simpl in Hf.
    destruct (Pandas.select preview_columns a); [|discriminate]. simpl in Hf.
    injection Hf as <-. reflexivity.
  - unfold spark_test_return in Hf. rewrite Ha in Hf. simpl in Hf.
    rewrite Hm in Hf. simpl in Hf.
    destruct (Pandas.nsmallest 10 "adjusted_pvalue" df); [|discriminate]. simpl in Hf.
    destruct (Pandas.select preview_columns a); [|discriminate]. simpl in Hf.
    injection Hf as <-. reflexivity.
Qed.

(** ** Failures after the engine has run *)

(** X4.  In each tool, when the engine exits with status zero but no table
    can be read at the expected path (no file, an empty file, something that
    is not a table), the call raises, [FileNotFoundError] when the file is
    missing; the read was attempted once, nothing is deleted, and the
    filesystem is left as the engine left it. *)
Theorem unreadable_table_leaves_files w output rest m :
  (forall counts_csv location_csv percentage min_total_counts seed,
     let run := create_spark_object counts_csv location_csv percentage
                  min_total_counts seed w in
     mkstemp ".rds" (fs w) (tmp_stems w) = Some (output, rest) ->
     Rscript (create_spark_object_cmd counts_csv location_csv percentage
                min_total_counts seed output) (<[output := Empty]> (fs w)) = (0, m) ->
     (forall grid df, m !! summary_path output = Some (Csv grid) ->
                      Pandas.read_frame grid <> Ok df) ->
     (exists e, run.1 = Raise e /\
                (m !! summary_path output = None ->
                 e = FileNotFoundError (summary_path output))) /\
     fs run.2 = m /\
     unlinks (trace run.2) = unlinks (trace w) /\
     reads (trace run.2) = (reads (trace w) ++ [summary_path output])%list) /\
  (forall spark_object_rds covariates_csv num_core verbose seed,
     let run := spark_vc spark_object_rds covariates_csv num_core verbose seed w in
     mkstemp ".rds" (fs w) (tmp_stems w) = Some (output, rest) ->
     Rscript (spark_vc_cmd spark_object_rds covariates_csv num_core verbose seed output)
       (<[output := Empty]> (fs w)) = (0, m) ->
     (forall grid df, m !! summary_path output = Some (Csv grid) ->
                      Pandas.read_frame grid <> Ok df) ->
     (exists e, run.1 = Raise e /\
                (m !! summary_path output = None ->
                 e = FileNotFoundError (summary_path output))) /\
     fs run.2 = m /\
     unlinks (trace run.2) = unlinks (trace w) /\
     reads (trace run.2) = (reads (trace w) ++ [summary_path output])%list) /\
  (forall fitted_spark_object_rds check_positive verbose seed,
     let run := spark_test fitted_spark_object_rds check_positive verbose seed w in
     mkstemp ".csv" (fs w) (tmp_stems w) = Some (output, rest) ->
     Rscript (spark_test_cmd fitted_spark_object_rds check_positive verbose seed output)
       (<[output := Empty]> (fs w)) = (0, m) ->
     (forall grid df, m !! output = Some (Csv grid) -> Pandas.read_frame grid <> Ok df) ->
     (exists e, run.1 = Raise e /\
                (m !! output = None -> e = FileNotFoundError output)) /\
     fs run.2 = m /\
     unlinks (trace run.2) = unlinks (trace w) /\
     reads (trace run.2) = (reads (trace w) ++ [output])%list).
Proof.
  assert (Hgen : forall A suffix cmd_of table_of
                   (finish : string -> Pandas.DataFrame -> result A),
    mkstemp suffix (fs w) (tmp_stems w) = Some (output, rest) ->
    Rscript (cmd_of output) (<[output := Empty]> (fs w)) = (0, m) ->
    (forall grid df, m !! table_of output = Some (Csv grid) ->
                     Pandas.read_frame grid <> Ok df) ->
    (exists e, (tool_shape suffix cmd_of table_of finish w).1 = Raise e /\
               (m !! table_of output = None ->
                e = FileNotFoundError (table_of output))) /\
    fs (tool_shape suffix cmd_of table_of finish w).2 = m /\
    unlinks (trace (tool_shape suffix cmd_of table_of finish w).2) = unlinks (trace w) /\
    reads (trace (tool_shape suffix cmd_of table_of finish w).2)
    = (reads (trace w) ++ [table_of output])%list).
  { intros A suffix cmd_of table_of finish Ht Hr Hbad.
    destruct (tool_shape_unreadable suffix cmd_of table_of finish w _ _ _ Ht Hr Hbad)
      as [e He].
    split.
    - exists e. split; [rewrite He; reflexivity|]. intros Hnone.
      rewrite (tool_shape_missing suffix cmd_of table_of finish w _ _ _ Ht Hr Hnone) in He.
      congruence.
    - rewrite He. unfold log, after_run. simpl. split; [reflexivity|].
      rewrite !unlinks_app, !reads_app. simpl. rewrite ?app_nil_r.
      split; reflexivity. }
  split; [|split]; intros.
  - apply (Hgen _ ".rds" _ summary_path create_spark_object_return); assumption.
  - apply (Hgen _ ".rds" _ summary_path spark_vc_return); assumption.
  - apply (Hgen _ ".csv" _ (fun o => o)
             (fun o => spark_test_return (Py.replace o ".csv" ".rds"))); assumption.
Qed.

(** X5.  When the table that was read lacks the first column a tool looks
    up ([n_genes], [n_genes_fitted], [adjusted_pvalue]), the call raises
    [KeyError] for that column, and the table file has already been deleted:
    a failure in building the dictionary comes after the cleanup. *)
Theorem missing_column_raises_after_cleanup w output df :
  (forall counts_csv location_csv percentage min_total_counts seed,
     let cmd_of := create_spark_object_cmd counts_csv location_csv percentage
                     min_total_counts seed in
     let run := create_spark_object counts_csv location_csv percentage
                  min_total_counts seed w in
     reads_table Rscript ".rds" cmd_of summary_path w output df ->
     Pandas.assoc "n_genes" (Pandas.cols df) = None ->
     run.1 = Raise (KeyError "n_genes") /\
     read_then_deleted w run.2 output (cmd_of output) (summary_path output)) /\
  (forall spark_object_rds covariates_csv num_core verbose seed,
     let cmd_of := spark_vc_cmd spark_object_rds covariates_csv num_core verbose seed in
     let run := spark_vc spark_object_rds covariates_csv num_core verbose seed w in
     reads_table Rscript ".rds" cmd_of summary_path w output df ->
     Pandas.assoc "n_genes_fitted" (Pandas.cols df) = None ->
     run.1 = Raise (KeyError "n_genes_fitted") /\
     read_then_deleted w run.2 output (cmd_of output) (summary_path output)) /\
  (forall fitted_spark_object_rds check_positive verbose seed,
     let cmd_of := spark_test_cmd fitted_spark_object_rds check_positive verbose seed in
     let run := spark_test fitted_spark_object_rds check_positive verbose seed w in
     reads_table Rscript ".csv" cmd_of (fun output_csv => output_csv) w output df ->
     Pandas.assoc "adjusted_pvalue" (Pandas.cols df) = None ->
     run.1 = Raise (KeyError "adjusted_pvalue") /\
     read_then_deleted w run.2 output (cmd_of output) output).
Proof.
  split; [|split]; intros.
  - destruct (tool_shape_deleted ".rds" cmd_of summary_path create_spark_object_return
                w output df H) as [Hdel Hres].
    split; [|exact Hdel].
    unfold run. rewrite create_spark_object_shape. fold cmd_of. rewrite Hres.
    unfold create_spark_object_return, first_of, Pandas.col. rewrite H0. reflexivity.
  - destruct (tool_shape_deleted ".rds" cmd_of summary_path spark_vc_return
                w output df H) as [Hdel Hres].
    split; [|exact Hdel].
    unfold run. rewrite spark_vc_shape. fold cmd_of. rewrite Hres.
    unfold spark_vc_return, first_of, Pandas.col. rewrite H0. reflexivity.
  - destruct (tool_shape_deleted ".csv" cmd_of (fun o => o)
                (fun o => spark_test_return (Py.replace o ".csv" ".rds"))
                w output df H) as [Hdel Hres].
    split; [|exact Hdel].
    unfold run. rewrite spark_test_shape. fold cmd_of. rewrite Hres.
    unfold spark_test_return, Pandas.col. rewrite H0. reflexivity.
Qed.

(** ** What the wrapper touches *)

(** X6.  Apart from creating its temporary file, a tool changes the
    filesystem only by deleting the table it read: after the call every other
    path holds what the engine left there.  In particular the artifact at the
    output path of [create_spark_object] and [spark_vc] is never deleted by
    the wrapper, in any outcome. *)
Theorem wrapper_only_deletes_table w output rest returncode m :
  (forall counts_csv location_csv percentage min_total_counts seed,
     let run := create_spark_object counts_csv location_csv percentage
                  min_total_counts seed w in
     mkstemp ".rds" (fs w) (tmp_stems w) = Some (output, rest) ->
     Rscript (create_spark_object_cmd counts_csv location_csv percentage
                min_total_counts seed output) (<[output := Empty]> (fs w))
     = (returncode, m) ->
     (forall p, p <> summary_path output -> fs run.2 !! p = m !! p) /\
     fs run.2 !! output = m !! output) /\
  (forall spark_object_rds covariates_csv num_core verbose seed,
     let run := spark_vc spark_object_rds covariates_csv num_core verbose seed w in
     mkstemp ".rds" (fs w) (tmp_stems w) = Some (output, rest) ->
     Rscript (spark_vc_cmd spark_object_rds covariates_csv num_core verbose seed output)
       (<[output := Empty]> (fs w)) = (returncode, m) ->
     (forall p, p <> summary_path output -> fs run.2 !! p = m !! p) /\
     fs run.2 !! output = m !! output) /\
  (forall fitted_spark_object_rds check_positive verbose seed,
     let run := spark_test fitted_spark_object_rds check_positive verbose seed w in
     mkstemp ".csv" (fs w) (tmp_stems w) = Some (output, rest) ->
     Rscript (spark_test_cmd fitted_spark_object_rds check_positive verbose seed output)
       (<[output := Empty]> (fs w)) = (returncode, m) ->
     forall p, p <> output -> fs run.2 !! p = m !! p).
Proof.
  split; [|split]; intros.
  - assert (Hfoot : forall p, p <> summary_path output -> fs run.2 !! p = m !! p).
    { intros p Hp. unfold run. rewrite create_spark_object_shape.
      eapply tool_shape_footprint; eassumption. }
    split; [exact Hfoot|]. apply Hfoot.
    destruct (mkstemp_name _ _ _ _ _ H) as (stem & _ & ->).
    intros Heq. exact (summary_path_differs stem (eq_sym Heq)).
  - assert (Hfoot : forall p, p <> summary_path output -> fs run.2 !! p = m !! p).
    { intros p Hp. unfold run. rewrite spark_vc_shape.
      eapply tool_shape_footprint; eassumption. }
    split; [exact Hfoot|]. apply Hfoot.
    destruct (mkstemp_name _ _ _ _ _ H) as (stem & _ & ->).
    intros Heq. exact (summary_path_differs stem (eq_sym Heq)).
  - unfold run. rewrite spark_test_shape.
    eapply (tool_shape_footprint ".csv" _ (fun o => o)); eassumption.
Qed.

(** X7.  Whatever the outcome, a call of any tool adds to the trace at most
    one run of the engine and at most one read, and deletes nothing but the
    file it read: there is no retry and no second attempt on any path. *)
Theorem single_pass_in_every_outcome w :
  (forall counts_csv location_csv percentage min_total_counts seed,
     exists tail,
       trace (create_spark_object counts_csv location_csv percentage
                min_total_counts seed w).2 = (trace w ++ tail)%list /\
       single_pass tail) /\
  (forall spark_object_rds covariates_csv num_core verbose seed,
     exists tail,
       trace (spark_vc spark_object_rds covariates_csv num_core verbose seed w).2
       = (trace w ++ tail)%list /\
       single_pass tail) /\
  (forall fitted_spark_object_rds check_positive verbose seed,
     exists tail,
       trace (spark_test fitted_spark_object_rds check_positive verbose seed w).2
       = (trace w ++ tail)%list /\
       single_pass tail).
Proof.
  split; [|split]; intros.
  - rewrite create_spark_object_shape. apply tool_shape_single_pass.
  - rewrite spark_vc_shape. apply tool_shape_single_pass.
  - rewrite spark_test_shape. apply tool_shape_single_pass.
Qed.

(** X8.  The handle returned by [create_spark_object] or [spark_vc] is a
    path that did not exist before the call; so [spark_vc] never returns the
    dataset handle it was given, when that file exists. *)
Theorem returned_handle_is_fresh w :
  (forall counts_csv location_csv percentage min_total_counts seed d w',
     create_spark_object counts_csv location_csv percentage min_total_counts seed w
     = (Ok d, w') ->
     fs w !! CreateSparkObject.spark_object_path d = None) /\
  (forall spark_object_rds covariates_csv num_core verbose seed d w',
     spark_vc spark_object_rds covariates_csv num_core verbose seed w = (Ok d, w') ->
     fs w !! SparkVc.fitted_spark_object_path d = None /\
     (is_Some (fs w !! spark_object_rds) ->
      SparkVc.fitted_spark_object_path d <> spark_object_rds)).
Proof.
  split; intros.
  - rewrite create_spark_object_shape in H.
    destruct (tool_shape_fresh _ _ _ _ _ _ _ H) as (output & (df & _ & Hfin) & Hfresh).
    rewrite (create_spark_object_return_path _ _ _ Hfin). exact Hfresh.
  - rewrite spark_vc_shape in H.
    destruct (tool_shape_fresh _ _ _ _ _ _ _ H) as (output & (df & _ & Hfin) & Hfresh).
    rewrite (spark_vc_return_path _ _ _ Hfin).
    split; [exact Hfresh|]. intros [c Hc] ->. congruence.
Qed.

(** ** The preview, continued *)

Lemma order_of_perm s order :
  Pandas.order_of s = Ok order -> Permutation order (seq 0 (Pandas.size s)).
Proof.
  unfold Pandas.size.
  destruct s as [l|l|l|l]; simpl; intros [= <-]; rewrite length_fmap;
    apply argsort_perm.
Qed.

(** X9.  When [spark_test] returns and the table has at most ten rows, the
    preview shows every row of the table exactly once: its records are those
    of a permutation of all the row positions. *)
Theorem small_table_preview_is_all_rows
    fitted_spark_object_rds check_positive verbose seed w d w' :
  spark_test fitted_spark_object_rds check_positive verbose seed w = (Ok d, w') ->
  exists output results_df gene combined adjusted,
    reads_table Rscript ".csv"
      (spark_test_cmd fitted_spark_object_rds check_positive verbose seed)
      (fun output_csv => output_csv) w output results_df /\
    Pandas.col results_df "gene" = Ok gene /\
    Pandas.col results_df "combined_pvalue" = Ok combined /\
    Pandas.col results_df "adjusted_pvalue" = Ok adjusted /\
    ((Pandas.nrows results_df <= 10)%nat ->
     exists idx,
       Permutation idx (seq 0 (Pandas.nrows results_df)) /\
       Forall2 (preview_record gene combined adjusted) idx
         (SparkTest.results_preview d)).
Proof.
  intros H. destruct (spark_test_returns _ _ _ _ _ _ _ H) as (output & df & Hr & Hf).
  pose proof (reads_table_well_formed _ _ _ _ _ _ Hr) as Hwf.
  destruct (spark_test_return_inv _ _ _ Hwf Hf)
    as (gene & combined & adjusted & mask & order
        & Hg & Hc & Ha & Hm & Ho & _ & _ & _ & Hp).
  destruct (well_formed_col df _ _ Hwf Ha) as [Hsize _].
  exists output, df, gene, combined, adjusted.
  repeat (split; [assumption|]).
  intros Hsmall. exists order.
  pose proof (order_of_perm adjusted order Ho) as Hperm.
  rewrite Hsize in Hperm. split; [exact Hperm|].
  rewrite firstn_all2 in Hp; [exact Hp|].
  rewrite (Permutation_length Hperm), length_seq. exact Hsmall.
Qed.

Lemma float_lt_after_le a b c :
  Pandas.float_le a b = true -> SFltb b c = true -> SFltb a c = true.
Proof.
  unfold Pandas.float_le, SFltb.
  destruct a as [s|s| |s m e], b as [s'|s'| |s' m' e'], c as [s''|s''| |s'' m'' e''];
    simpl; try destruct s; try destruct s'; try destruct s''; simpl; try congruence;
    change (PosDef.Pos.compare_cont Eq) with Pos.compare;
    compare_cases; simpl; try congruence; try lia.
Qed.

Lemma cells_valid s i x f :
  Pandas.valid_series s = true -> Pandas.cells s !! i = Some x -> x = VFloat f ->
  Pandas.binary64 f = true.
Proof.
  destruct s as [l|l|l|l]; simpl; intros Hv Hx ->; rewrite list_lookup_fmap in Hx;
    try (destruct (l !! i); discriminate).
  destruct (l !! i) as [f'|] eqn:E; [|discriminate]. injection Hx as ->.
  rewrite forallb_forall in Hv. apply Hv.
  apply list_elem_of_In. eapply list_elem_of_lookup_2. exact E.
Qed.

Lemma below_after_le x y :
  (forall f, x = VFloat f -> Pandas.binary64 f = true) ->
  (forall f, y = VFloat f -> Pandas.binary64 f = true) ->
  scalar_le x y = true -> below_0_05 y = true -> below_0_05 x = true.
Proof.
  intros Hx Hy.
  destruct x as [a|a|a|a], y as [b|b|b|b]; try discriminate.
  - simpl. lia.
  - intros Hle Hb.
    rewrite <- (lt_0_05_exact a (Hx a eq_refl)).
    rewrite <- (lt_0_05_exact b (Hy b eq_refl)) in Hb.
    exact (float_lt_after_le a b Pandas.c0_05 Hle Hb).
  - destruct a, b; simpl; congruence.
Qed.

(** X10.  When [spark_test] returns, the preview never shows a gene that is
    not significant while leaving out one that is: if some row outside the
    preview has its adjusted p-value below 0.05, every row of the preview
    has too. *)
Theorem preview_never_skips_significant
    fitted_spark_object_rds check_positive verbose seed w d w' :
  spark_test fitted_spark_object_rds check_positive verbose seed w = (Ok d, w') ->
  exists output results_df gene combined adjusted idx,
    reads_table Rscript ".csv"
      (spark_test_cmd fitted_spark_object_rds check_positive verbose seed)
      (fun output_csv => output_csv) w output results_df /\
    Pandas.col results_df "gene" = Ok gene /\
    Pandas.col results_df "combined_pvalue" = Ok combined /\
    Pandas.col results_df "adjusted_pvalue" = Ok adjusted /\
    Forall2 (preview_record gene combined adjusted) idx (SparkTest.results_preview d) /\
    (forall i j x y,
       In i idx -> ~ In j idx ->
       Pandas.cells adjusted !! i = Some x -> Pandas.cells adjusted !! j = Some y ->
       below_0_05 y = true -> below_0_05 x = true).
Proof.
  intros H. destruct (spark_test_returns _ _ _ _ _ _ _ H) as (output & df & Hr & Hf).
  pose proof (reads_table_well_formed _ _ _ _ _ _ Hr) as Hwf.
  destruct (spark_test_return_inv _ _ _ Hwf Hf)
    as (gene & combined & adjusted & mask & order
        & Hg & Hc & Ha & Hm & Ho & _ & _ & _ & Hp).
  destruct (well_formed_col df _ _ Hwf Ha) as [_ Hvalid].
  destruct (order_of_smallest 10 adjusted order Ho) as (_ & _ & _ & Hsmall & _).
  exists output, df, gene, combined, adjusted, (firstn 10 order).
  repeat (split; [assumption|]).
  intros i j x y Hi Hj Hx Hy Hbelow.
  apply (below_after_le x y).
  - intros f Hf'. exact (cells_valid adjusted i x f Hvalid Hx Hf').
  - intros f Hf'. exact (cells_valid adjusted j y f Hvalid Hy Hf').
  - exact (Hsmall i j x y Hi Hj Hx Hy).
  - exact Hbelow.
Qed.

(** ** The Object Builder, continued *)

(** X11.  When [create_spark_object] returns, its message quotes the
    first-row values of [n_genes] and [n_spots] as the summary has them; when
    those are integers, the message shows the returned [n_genes] and
    [n_spots] in decimal. *)
Theorem create_message_reports_counts
    counts_csv location_csv percentage min_total_counts seed w d w' :
  create_spark_object counts_csv location_csv percentage min_total_counts seed w
  = (Ok d, w') ->
  exists output df g s,
    reads_table Rscript ".rds"
      (create_spark_object_cmd counts_csv location_csv percentage min_total_counts seed)
      summary_path w output df /\
    first_row_value df "n_genes" g /\
    first_row_value df "n_spots" s /\
    CreateSparkObject.message d
    = "SPARK object created with " +:+ str_scalar g +:+ " genes and "
        +:+ str_scalar s +:+ " spots" /\
    CreateSparkObject.reference d = reference_url /\
    (forall zg zs, g = VInt zg -> s = VInt zs ->
       CreateSparkObject.n_genes d = zg /\ CreateSparkObject.n_spots d = zs /\
       CreateSparkObject.message d
       = "SPARK object created with " +:+ Py.str_int (CreateSparkObject.n_genes d)
           +:+ " genes and " +:+ Py.str_int (CreateSparkObject.n_spots d) +:+ " spots").
Proof.
  intros H. rewrite create_spark_object_shape in H.
  destruct (tool_shape_returns_reads _ _ _ _ _ _ _ H) as (output & df & Hreads & Hfin).
  unfold create_spark_object_return, first_of in Hfin.
  destruct (Pandas.col df "n_genes") as [cg|] eqn:Hcg; [|discriminate].
  simpl in Hfin. unfold Pandas.at0 in Hfin.
  destruct (Pandas.cells cg !! 0%nat) as [g|] eqn:Hg; [|discriminate].
  simpl in Hfin.
  destruct (Pandas.col df "n_spots") as [cs|] eqn:Hcs; [|discriminate].
  simpl in Hfin.
  destruct (Pandas.cells cs !! 0%nat) as [s|] eqn:Hs; [|discriminate].
  simpl in Hfin.
  destruct (PyInt.int g) as [zg|] eqn:Hzg; [|discriminate].
  simpl in Hfin.
  destruct (PyInt.int s) as [zs|] eqn:Hzs; [|discriminate].
  simpl in Hfin.
  destruct (rbind _ PyInt.int) as [zt|] eqn:Hzt; [|discriminate].
  simpl in Hfin. injection Hfin as <-. simpl.
  exists output, df, g, s. unfold first_row_value.
  split; [exact Hreads|]. split; [eauto|]. split; [eauto|].
  split; [reflexivity|]. split; [reflexivity|].
  intros zg' zs' -> ->. simpl in Hzg, Hzs.
  injection Hzg as <-. injection Hzs as <-. auto.
Qed.

(** X12.  When the summary that [create_spark_object] or [spark_vc] reads
    has a header and no data row, the call raises [KeyError] (for the column
    when it is missing, for row 0 otherwise) instead of returning zero
    counts, and the summary file has been deleted. *)
Theorem empty_summary_raises_key_error w output df :
  (forall counts_csv location_csv percentage min_total_counts seed,
     let cmd_of := create_spark_object_cmd counts_csv location_csv percentage
                     min_total_counts seed in
     let run := create_spark_object counts_csv location_csv percentage
                  min_total_counts seed w in
     reads_table Rscript ".rds" cmd_of summary_path w output df ->
     Pandas.nrows df = 0%nat ->
     (run.1 = Raise (KeyError "n_genes") \/ run.1 = Raise (KeyError "0")) /\
     read_then_deleted w run.2 output (cmd_of output) (summary_path output)) /\
  (forall spark_object_rds covariates_csv num_core verbose seed,
     let cmd_of := spark_vc_cmd spark_object_rds covariates_csv num_core verbose seed in
     let run := spark_vc spark_object_rds covariates_csv num_core verbose seed w in
     reads_table Rscript ".rds" cmd_of summary_path w output df ->
     Pandas.nrows df = 0%nat ->
     (run.1 = Raise (KeyError "n_genes_fitted") \/ run.1 = Raise (KeyError "0")) /\
     read_then_deleted w run.2 output (cmd_of output) (summary_path output)).
Proof.
  assert (Hfirst : forall name,
            Pandas.well_formed df = true -> Pandas.nrows df = 0%nat ->
            first_of df name = Raise (KeyError name)
            \/ first_of df name = Raise (KeyError "0")).
  { intros name Hwf Hz. unfold first_of.
    destruct (Pandas.col df name) as [s|e] eqn:Hc.
    - right. destruct (well_formed_col df name s Hwf Hc) as [Hsize _].
      rewrite Hz in Hsize. unfold Pandas.size in Hsize.
      simpl. unfold Pandas.at0.
      destruct (Pandas.cells s); [reflexivity|discriminate Hsize].
    - left. unfold Pandas.col in Hc.
      destruct (Pandas.assoc name (Pandas.cols df)); [discriminate|].
      injection Hc as <-. reflexivity. }
  split; intros.
  - pose proof (reads_table_well_formed _ _ _ _ _ _ H) as Hwf.
    destruct (tool_shape_deleted ".rds" cmd_of summary_path create_spark_object_return
                w output df H) as [Hdel Hres].
    split; [|exact Hdel].
    unfold run. rewrite create_spark_object_shape. fold cmd_of. rewrite Hres.
    unfold create_spark_object_return.
    destruct (Hfirst "n_genes" Hwf H0) as [-> | ->]; auto.
  - pose proof (reads_table_well_formed _ _ _ _ _ _ H) as Hwf.
    destruct (tool_shape_deleted ".rds" cmd_of summary_path spark_vc_return
                w output df H) as [Hdel Hres].
    split; [|exact Hdel].
    unfold run. rewrite spark_vc_shape. fold cmd_of. rewrite Hres.
    unfold spark_vc_return.
    destruct (Hfirst "n_genes_fitted" Hwf H0) as [-> | ->]; auto.
Qed.

End Tools.

(** ** Seed determinism, for a deterministic engine *)

Section Determinism.

Variable R_SCRIPT_DIR : string.
Variable str_float : spec_float -> string.
Variable R : list string -> list (option content) -> Z * Pandas.DataFrame * string.

Notation engine := (Engine.deterministic_engine R).




Section ShapeDeterminism.

Context {A S : Type} (suffix : string) (cmd_of : string -> list string)
  (table_of : string -> string) (finish : string -> Pandas.DataFrame -> result A)
  (summary : result A -> option S) (inputs : list string).

Hypothesis summary_raise : forall e, summary (Raise e) = None.
Hypothesis summary_path_free :
  forall o1 o2 df, summary (finish o1 df) = summary (finish o2 df).
Hypothesis args_path_free :
  forall o1 o2,
    (firstn 1 (skipn 1 (cmd_of o1)) ++ Engine.without_output (skipn 1 (skipn 1 (cmd_of o1))))%list
    = (firstn 1 (skipn 1 (cmd_of o2)) ++ Engine.without_output (skipn 1 (skipn 1 (cmd_of o2))))%list.
Hypothesis cmd_inputs :
  forall o, Engine.values_of Engine.input_flags (skipn 1 (skipn 1 (cmd_of o))) = inputs.
Hypothesis cmd_output :
  forall o, exists l, Engine.values_of ["--output"] (skipn 1 (skipn 1 (cmd_of o))) = o :: l.
Hypothesis table_stored :
  forall stem table object m,
    Engine.store (stem +:+ suffix) table object m !! table_of (stem +:+ suffix)
    = Some (Csv table).




End ShapeDeterminism.







End Determinism.

(** ** The tools run on concrete worlds *)

Lemma significant_count_witness :
  exists output results_df adjusted,
    reads_table (Example.engine Example.result_table) ".csv"
      (spark_test_cmd Example.dir "fit.rds" true false 42)
      (fun output_csv => output_csv) Example.w0 output results_df /\
    Pandas.col results_df "adjusted_pvalue" = Ok adjusted /\
    length (Pandas.cells adjusted) = Pandas.nrows results_df /\
    SparkTest.n_significant_genes Example.tested
      = Z.of_nat (length (List.filter below_0_05 (Pandas.cells adjusted))) /\
    (length (SparkTest.results_preview Example.tested) <= 10)%nat.
Proof.
  apply (significant_count_over_full_table Example.dir
           (Example.engine Example.result_table) "fit.rds" true false 42
           Example.w0 Example.tested
           (spark_test Example.dir (Example.engine Example.result_table)
              "fit.rds" true false 42 Example.w0).2).
  vm_compute. reflexivity.
Defined.

(** Eleven significant genes are counted although the preview stops at ten. *)
Example count_exceeds_preview :
  match (spark_test Example.dir (Example.engine Example.wide_table)
           "fit.rds" true false 42 Example.w0).1 with
  | Ok d => SparkTest.n_significant_genes d = 11 /\
            SparkTest.n_genes_tested d = 12 /\
            length (SparkTest.results_preview d) = 10%nat
  | Raise _ => False
  end.
Proof. vm_compute. repeat split. Qed.

Lemma preview_witness :
  exists output results_df gene combined adjusted idx,
    reads_table (Example.engine Example.result_table) ".csv"
      (spark_test_cmd Example.dir "fit.rds" true false 42)
      (fun output_csv => output_csv) Example.w0 output results_df /\
    Pandas.col results_df "gene" = Ok gene /\
    Pandas.col results_df "combined_pvalue" = Ok combined /\
    Pandas.col results_df "adjusted_pvalue" = Ok adjusted /\
    Pandas.size adjusted = Pandas.nrows results_df /\
    smallest_rows 10 adjusted idx /\
    Forall2 (preview_record gene combined adjusted) idx
      (SparkTest.results_preview Example.tested) /\
    ((10 <= Pandas.nrows results_df)%nat ->
     length (SparkTest.results_preview Example.tested) = 10%nat).
Proof.
  apply (preview_is_ten_smallest Example.dir
           (Example.engine Example.result_table) "fit.rds" true false 42
           Example.w0 Example.tested
           (spark_test Example.dir (Example.engine Example.result_table)
              "fit.rds" true false 42 Example.w0).2).
  vm_compute. reflexivity.
Defined.

Lemma covariates_argument_witness :
  spark_vc_cmd Example.dir "obj.rds" (Some "cov.csv") 4 true 42 "/tmp/tmpk3x9q2ab.rds"
  = (spark_vc_cmd Example.dir "obj.rds" None 4 true 42 "/tmp/tmpk3x9q2ab.rds"
       ++ ["--covariates"; "cov.csv"])%list /\
  spark_vc_cmd Example.dir "obj.rds" (Some "cov.csv") 4 true 42 "/tmp/tmpk3x9q2ab.rds"
  <> spark_vc_cmd Example.dir "obj.rds" None 4 true 42 "/tmp/tmpk3x9q2ab.rds".
Proof.
  destruct (spark_vc_covariates_argument Example.dir "obj.rds" 4 true 42
              "/tmp/tmpk3x9q2ab.rds" "cov.csv") as (_ & _ & _ & H1 & _ & H2);
    [discriminate|].
  split; [exact H1|exact H2].
Defined.

Lemma nonzero_exit_witness :
  aborted (spark_test Example.dir Example.failing_engine "fit.rds" true false 42 Example.w0)
    Example.w0 "/tmp/tmpk3x9q2ab.csv"
    (spark_test_cmd Example.dir "fit.rds" true false 42 "/tmp/tmpk3x9q2ab.csv") 1.
Proof.
  destruct (nonzero_exit_fails_call Example.dir Example.str_float Example.failing_engine
              Example.w0 "/tmp/tmpk3x9q2ab.csv" ["/tmp/tmp_rz81m0c"] 1
              (<["/tmp/tmpk3x9q2ab.csv" := Empty]> Example.inputs)) as (_ & _ & H);
    [lia|].
  apply H; vm_compute; reflexivity.
Defined.

Lemma table_deleted_witness :
  exists output df,
    reads_table (Example.engine Example.result_table) ".rds"
      (create_spark_object_cmd Example.dir Example.str_float "counts.csv" "loc.csv"
         Example.tenth 10 42) summary_path Example.w0 output df /\
    read_then_deleted Example.w0
      (create_spark_object Example.dir Example.str_float
         (Example.engine Example.result_table) "counts.csv" "loc.csv"
         Example.tenth 10 42 Example.w0).2
      output
      (create_spark_object_cmd Example.dir Example.str_float "counts.csv" "loc.csv"
         Example.tenth 10 42 output)
      (summary_path output).
Proof.
  destruct (table_file_read_then_deleted Example.dir Example.str_float
              (Example.engine Example.result_table) Example.w0 ""
              Example.summary_table) as [H _].
  destruct (H "counts.csv" "loc.csv" Example.tenth 10 42) as [_ H2].
  apply (H2 Example.created). vm_compute. reflexivity.
Defined.

(** C5 fails as stated: when the engine exits with status 1, [spark_test]
    raises and the temporary [.csv] it created is still in the filesystem,
    neither read nor deleted. *)
Lemma temp_table_survives_engine_failure :
  (spark_test Example.dir Example.failing_engine "fit.rds" true false 42 Example.w0).1
  = Raise (CalledProcessError 1
             (spark_test_cmd Example.dir "fit.rds" true false 42 "/tmp/tmpk3x9q2ab.csv")) /\
  fs (spark_test Example.dir Example.failing_engine "fit.rds" true false 42 Example.w0).2
    !! "/tmp/tmpk3x9q2ab.csv" = Some Empty /\
  reads (trace (spark_test Example.dir Example.failing_engine
                  "fit.rds" true false 42 Example.w0).2) = [] /\
  unlinks (trace (spark_test Example.dir Example.failing_engine
                    "fit.rds" true false 42 Example.w0).2) = [].
Proof. vm_compute. repeat split. Qed.




Lemma create_contract_witness :
  exists returncode,
    runs (trace (create_spark_object Example.dir Example.str_float
                   (Example.engine Example.result_table) "counts.csv" "loc.csv"
                   Example.tenth 10 42 Example.w0).2)
    = (runs (trace Example.w0)
         ++ [([ "Rscript"; Example.dir +:+ "/" +:+ "create_spark_object.R";
                "--counts"; "counts.csv";
                "--location"; "loc.csv";
                "--percentage"; Example.str_float Example.tenth;
                "--min_total_counts"; Py.str_int 10;
                "--seed"; Py.str_int 42;
                "--output"; "/tmp/tmpk3x9q2ab.rds" ], returncode)])%list.
Proof.
  assert (Ht : mkstemp ".rds" (fs Example.w0) (tmp_stems Example.w0)
               = Some ("/tmp/tmpk3x9q2ab.rds", ["/tmp/tmp_rz81m0c"])).
  { vm_compute. reflexivity. }
  destruct (create_spark_object_contract Example.dir Example.str_float
              (Example.engine Example.result_table) "counts.csv" "loc.csv"
              Example.tenth 10 42 Example.w0 _ _ Ht) as [H _].
  exact H.
Defined.

Lemma tested_count_witness :
  exists output results_df,
    reads_table (Example.engine Example.result_table) ".csv"
      (spark_test_cmd Example.dir "fit.rds" true false 42)
      (fun output_csv => output_csv) Example.w0 output results_df /\
    (0 < Pandas.nrows results_df)%nat /\
    SparkTest.n_genes_tested Example.tested = Z.of_nat (Pandas.nrows results_df) /\
    length (SparkTest.results_preview Example.tested)
    = Nat.min 10 (Pandas.nrows results_df) /\
    ((Pandas.nrows results_df < 10)%nat ->
     length (SparkTest.results_preview Example.tested) = Pandas.nrows results_df).
Proof.
  apply (tested_count_and_preview_length Example.dir
           (Example.engine Example.result_table) "fit.rds" true false 42
           Example.w0 Example.tested
           (spark_test Example.dir (Example.engine Example.result_table)
              "fit.rds" true false 42 Example.w0).2).
  vm_compute. reflexivity.
Defined.

(** C10 fails as stated: when the engine reports no gene, the table is a
    header without rows, its columns have dtype [object], and [spark_test]
    raises [TypeError] instead of returning zero counts and an empty
    preview. *)
Lemma empty_table_raises :
  (spark_test Example.dir (Example.engine Example.empty_table)
     "fit.rds" true false 42 Example.w0).1 = Raise TypeError /\
  ~ exists d,
      (spark_test Example.dir (Example.engine Example.empty_table)
         "fit.rds" true false 42 Example.w0).1 = Ok d /\
      SparkTest.n_genes_tested d = 0 /\ SparkTest.results_preview d = [].
Proof.
  assert (H : (spark_test Example.dir (Example.engine Example.empty_table)
                 "fit.rds" true false 42 Example.w0).1 = Raise TypeError).
  { vm_compute. reflexivity. }
  split; [exact H|]. intros (d & Hd & _). rewrite H in Hd. discriminate Hd.
Qed.

(** ** Further runs on the concrete worlds *)

Lemma spark_vc_contract_witness :
  exists returncode,
    runs (trace (spark_vc Example.dir Example.str_float
                   (Example.engine Example.result_table)
                   "obj.rds" (Some "cov.csv") 4 true 42 Example.w0).2)
    = (runs (trace Example.w0)
         ++ [(([ "Rscript"; Example.dir +:+ "/" +:+ "spark_vc.R";
                 "--spark_object"; "obj.rds";
                 "--num_core"; Py.str_int 4;
                 "--verbose"; logical true;
                 "--seed"; Py.str_int 42;
                 "--output"; "/tmp/tmpk3x9q2ab.rds" ]
                 ++ covariates_args (Some "cov.csv"))%list, returncode)])%list.
Proof.
  assert (Ht : mkstemp ".rds" (fs Example.w0) (tmp_stems Example.w0)
               = Some ("/tmp/tmpk3x9q2ab.rds", ["/tmp/tmp_rz81m0c"])).
  { vm_compute. reflexivity. }
  destruct (spark_vc_contract Example.dir Example.str_float
              (Example.engine Example.result_table) "obj.rds" (Some "cov.csv")
              4 true 42 Example.w0 _ _ Ht) as [H _].
  exact H.
Defined.

Lemma spark_test_invocation_witness :
  exists returncode,
    runs (trace (spark_test Example.dir (Example.engine Example.result_table)
                   "fit.rds" true false 42 Example.w0).2)
    = (runs (trace Example.w0)
         ++ [([ "Rscript"; Example.dir +:+ "/" +:+ "spark_test.R";
                "--spark_object"; "fit.rds";
                "--check_positive"; logical true;
                "--verbose"; logical false;
                "--seed"; Py.str_int 42;
                "--output"; "/tmp/tmpk3x9q2ab.csv" ], returncode)])%list.
Proof.
  apply (spark_test_invocation Example.dir (Example.engine Example.result_table)
           "fit.rds" true false 42 Example.w0 "/tmp/tmpk3x9q2ab.csv"
           ["/tmp/tmp_rz81m0c"]).
  vm_compute. reflexivity.
Defined.

Lemma counts_consistent_witness :
  0 <= SparkTest.n_significant_genes Example.tested
    <= SparkTest.n_genes_tested Example.tested /\
  1 <= SparkTest.n_genes_tested Example.tested /\
  SparkTest.message Example.tested
  = "Spatial pattern testing completed. Found "
      +:+ Py.str_int (SparkTest.n_significant_genes Example.tested)
      +:+ " significant genes (FDR < 0.05)." /\
  SparkTest.reference Example.tested = reference_url.
Proof.
  apply (spark_test_counts_consistent Example.dir
           (Example.engine Example.result_table) "fit.rds" true false 42
           Example.w0 Example.tested
           (spark_test Example.dir (Example.engine Example.result_table)
              "fit.rds" true false 42 Example.w0).2).
  vm_compute. reflexivity.
Defined.

Lemma unreadable_table_witness :
  (exists e,
     (create_spark_object Example.dir Example.str_float Example.silent_engine
        "counts.csv" "loc.csv" Example.tenth 10 42 Example.w0).1 = Raise e /\
     ((<["/tmp/tmpk3x9q2ab.rds" := Empty]> Example.inputs)
        !! summary_path "/tmp/tmpk3x9q2ab.rds" = None ->
      e = FileNotFoundError (summary_path "/tmp/tmpk3x9q2ab.rds"))) /\
  fs (create_spark_object Example.dir Example.str_float Example.silent_engine
        "counts.csv" "loc.csv" Example.tenth 10 42 Example.w0).2
  = <["/tmp/tmpk3x9q2ab.rds" := Empty]> Example.inputs /\
  unlinks (trace (create_spark_object Example.dir Example.str_float
                    Example.silent_engine "counts.csv" "loc.csv"
                    Example.tenth 10 42 Example.w0).2)
  = unlinks (trace Example.w0) /\
  reads (trace (create_spark_object Example.dir Example.str_float
                  Example.silent_engine "counts.csv" "loc.csv"
                  Example.tenth 10 42 Example.w0).2)
  = (reads (trace Example.w0) ++ [summary_path "/tmp/tmpk3x9q2ab.rds"])%list.
Proof.
  destruct (unreadable_table_leaves_files Example.dir Example.str_float
              Example.silent_engine Example.w0 "/tmp/tmpk3x9q2ab.rds"
              ["/tmp/tmp_rz81m0c"]
              (<["/tmp/tmpk3x9q2ab.rds" := Empty]> Example.inputs)) as [H _].
  apply (H "counts.csv" "loc.csv" Example.tenth 10 42).
  - vm_compute. reflexivity.
  - vm_compute. reflexivity.
  - intros grid df Hm. vm_compute in Hm. discriminate Hm.
Defined.

Lemma missing_column_witness :
  (spark_test Example.dir (Example.engine Example.summary_table)
     "fit.rds" true false 42 Example.w0).1 = Raise (KeyError "adjusted_pvalue") /\
  read_then_deleted Example.w0
    (spark_test Example.dir (Example.engine Example.summary_table)
       "fit.rds" true false 42 Example.w0).2
    "/tmp/tmpk3x9q2ab.csv"
    (spark_test_cmd Example.dir "fit.rds" true false 42 "/tmp/tmpk3x9q2ab.csv")
    "/tmp/tmpk3x9q2ab.csv".
Proof.
  destruct (missing_column_raises_after_cleanup Example.dir Example.str_float
              (Example.engine Example.summary_table) Example.w0
              "/tmp/tmpk3x9q2ab.csv" Example.summary_table) as (_ & _ & H).
  apply (H "fit.rds" true false 42).
  - eexists _, _, _. vm_compute. repeat split; reflexivity.
  - vm_compute. reflexivity.
Defined.

Lemma wrapper_footprint_witness :
  fs (create_spark_object Example.dir Example.str_float
        (Example.engine Example.result_table) "counts.csv" "loc.csv"
        Example.tenth 10 42 Example.w0).2 !! "/tmp/tmpk3x9q2ab.rds"
  = (Example.engine Example.result_table
       (create_spark_object_cmd Example.dir Example.str_float "counts.csv" "loc.csv"
          Example.tenth 10 42 "/tmp/tmpk3x9q2ab.rds")
       (<["/tmp/tmpk3x9q2ab.rds" := Empty]> (fs Example.w0))).2
    !! "/tmp/tmpk3x9q2ab.rds".
Proof.
  destruct (wrapper_only_deletes_table Example.dir Example.str_float
              (Example.engine Example.result_table) Example.w0
              "/tmp/tmpk3x9q2ab.rds" ["/tmp/tmp_rz81m0c"] 0
              (Example.engine Example.result_table
                 (create_spark_object_cmd Example.dir Example.str_float
                    "counts.csv" "loc.csv" Example.tenth 10 42 "/tmp/tmpk3x9q2ab.rds")
                 (<["/tmp/tmpk3x9q2ab.rds" := Empty]> (fs Example.w0))).2) as [H _].
  destruct (H "counts.csv" "loc.csv" Example.tenth 10 42) as [_ H2].
  - vm_compute. reflexivity.
  - vm_compute. reflexivity.
  - exact H2.
Defined.

Lemma fresh_handle_witness :
  fs Example.w0 !! CreateSparkObject.spark_object_path Example.created = None.
Proof.
  destruct (returned_handle_is_fresh Example.dir Example.str_float
              (Example.engine Example.result_table) Example.w0) as [H _].
  apply (H "counts.csv" "loc.csv" Example.tenth 10 42 Example.created
           (create_spark_object Example.dir Example.str_float
              (Example.engine Example.result_table) "counts.csv" "loc.csv"
              Example.tenth 10 42 Example.w0).2).
  vm_compute. reflexivity.
Defined.

Lemma small_table_witness :
  exists output results_df gene combined adjusted,
    reads_table (Example.engine Example.result_table) ".csv"
      (spark_test_cmd Example.dir "fit.rds" true false 42)
      (fun output_csv => output_csv) Example.w0 output results_df /\
    Pandas.col results_df "gene" = Ok gene /\
    Pandas.col results_df "combined_pvalue" = Ok combined /\
    Pandas.col results_df "adjusted_pvalue" = Ok adjusted /\
    ((Pandas.nrows results_df <= 10)%nat ->
     exists idx,
       Permutation idx (seq 0 (Pandas.nrows results_df)) /\
       Forall2 (preview_record gene combined adjusted) idx
         (SparkTest.results_preview Example.tested)).
Proof.
  apply (small_table_preview_is_all_rows Example.dir
           (Example.engine Example.result_table) "fit.rds" true false 42
           Example.w0 Example.tested
           (spark_test Example.dir (Example.engine Example.result_table)
              "fit.rds" true false 42 Example.w0).2).
  vm_compute. reflexivity.
Defined.

Lemma significant_first_witness :
  exists output results_df gene combined adjusted idx,
    reads_table (Example.engine Example.result_table) ".csv"
      (spark_test_cmd Example.dir "fit.rds" true false 42)
      (fun output_csv => output_csv) Example.w0 output results_df /\
    Pandas.col results_df "gene" = Ok gene /\
    Pandas.col results_df "combined_pvalue" = Ok combined /\
    Pandas.col results_df "adjusted_pvalue" = Ok adjusted /\
    Forall2 (preview_record gene combined adjusted) idx
      (SparkTest.results_preview Example.tested) /\
    (forall i j x y,
       In i idx -> ~ In j idx ->
       Pandas.cells adjusted !! i = Some x -> Pandas.cells adjusted !! j = Some y ->
       below_0_05 y = true -> below_0_05 x = true).
Proof.
  apply (preview_never_skips_significant Example.dir
           (Example.engine Example.result_table) "fit.rds" true false 42
           Example.w0 Example.tested
           (spark_test Example.dir (Example.engine Example.result_table)
              "fit.rds" true false 42 Example.w0).2).
  vm_compute. reflexivity.
Defined.

Lemma create_message_witness :
  exists output df g s,
    reads_table (Example.engine Example.result_table) ".rds"
      (create_spark_object_cmd Example.dir Example.str_float "counts.csv" "loc.csv"
         Example.tenth 10 42) summary_path Example.w0 output df /\
    first_row_value df "n_genes" g /\
    first_row_value df "n_spots" s /\
    CreateSparkObject.message Example.created
    = "SPARK object created with " +:+ str_scalar Example.str_float g +:+ " genes and "
        +:+ str_scalar Example.str_float s +:+ " spots" /\
    CreateSparkObject.reference Example.created = reference_url /\
    (forall zg zs, g = VInt zg -> s = VInt zs ->
       CreateSparkObject.n_genes Example.created = zg /\
       CreateSparkObject.n_spots Example.created = zs /\
       CreateSparkObject.message Example.created
       = "SPARK object created with "
           +:+ Py.str_int (CreateSparkObject.n_genes Example.created)
           +:+ " genes and "
           +:+ Py.str_int (CreateSparkObject.n_spots Example.created) +:+ " spots").
Proof.
  apply (create_message_reports_counts Example.dir Example.str_float
           (Example.engine Example.result_table) "counts.csv" "loc.csv"
           Example.tenth 10 42 Example.w0 Example.created
           (create_spark_object Example.dir Example.str_float
              (Example.engine Example.result_table) "counts.csv" "loc.csv"
              Example.tenth 10 42 Example.w0).2).
  vm_compute. reflexivity.
Defined.

(** On the twelve-gene table every previewed gene is significant and the one
    gene that is not is left out. *)
Example wide_preview_all_significant :
  match (spark_test Example.dir (Example.engine Example.wide_table)
           "fit.rds" true false 42 Example.w0).1 with
  | Ok d =>
      forallb (fun record : list (string * scalar) =>
                 match record with
                 | [_; _; (_, a)] => below_0_05 a
                 | _ => false
                 end) (SparkTest.results_preview d) = true
  | Raise _ => False
  end.
Proof. vm_compute. reflexivity. Qed.

Lemma empty_summary_witness :
  ((create_spark_object Example.dir Example.str_float Example.empty_summary_engine
      "counts.csv" "loc.csv" Example.tenth 10 42 Example.w0).1
   = Raise (KeyError "n_genes")
   \/ (create_spark_object Example.dir Example.str_float Example.empty_summary_engine
         "counts.csv" "loc.csv" Example.tenth 10 42 Example.w0).1
      = Raise (KeyError "0")) /\
  read_then_deleted Example.w0
    (create_spark_object Example.dir Example.str_float Example.empty_summary_engine
       "counts.csv" "loc.csv" Example.tenth 10 42 Example.w0).2
    "/tmp/tmpk3x9q2ab.rds"
    (create_spark_object_cmd Example.dir Example.str_float "counts.csv" "loc.csv"
       Example.tenth 10 42 "/tmp/tmpk3x9q2ab.rds")
    (summary_path "/tmp/tmpk3x9q2ab.rds").
Proof.
  destruct (empty_summary_raises_key_error Example.dir Example.str_float
              Example.empty_summary_engine Example.w0 "/tmp/tmpk3x9q2ab.rds"
              {| Pandas.nrows := 0;
                 Pandas.cols := [ ("gene", Pandas.ObjS []);
                                  ("combined_pvalue", Pandas.ObjS []);
                                  ("adjusted_pvalue", Pandas.ObjS []) ] |}) as [H _].
  apply (H "counts.csv" "loc.csv" Example.tenth 10 42).
  - eexists _, _, _. vm_compute. repeat split; reflexivity.
  - reflexivity.
Defined.
